(** * pyvisa.rnames: parsing and assembling resource names

    A shallow embedding of [src/pyvisa/rnames.py] and the properties of
    its resource-name parser.

    Conventions of the embedding.
    - Python strings are [string]s, sequences of characters with codes
      below 256; dictionaries with string keys are [gmap string value];
      the registry [_SUBPARSER] is a [gmap] keyed by pairs of strings.
    - A call either returns or raises: [result A], with the exception
      classes that occur in this module.
    - Every function is embedded from its [def] as it is laid out in the
      file.  In the classes [_GPIBInstr], [_GPIBIntfc] and [_PXIInstr] the
      statements that follow the docstring of [parse] (lines 162-175,
      196-203 and 394-404) start in column 4, the column of [def parse]
      itself: they are statements of the class body, not of the method.
      The method is therefore its docstring alone, and a call returns
      [None].
    - The class [_ASRLInstr] defines a method [_asrl_instr] and no
      [parse]: its instances run the [parse] of the base class.
    - [pyvisa.constants] is not among the sources: the enumeration
      [InterfaceType] is modelled from the spec, and [VI_NO_SEC_ADDR] is a
      parameter. *)

From Stdlib Require Import Ascii String ZArith DecimalString.
From stdpp Require Import base option list strings gmap fin_maps.

(** ** Results of calls *)

(** The exception classes met in the module.  [InvalidResourceName] is the
    module's own subclass of [ValueError]; an [except InvalidResourceName]
    clause does not catch a plain [ValueError]. *)
Inductive exn : Type :=
  | KeyError
  | IndexError
  | TypeError (msg : string)
  | ValueError (msg : string)
  | InvalidResourceName (msg : string)
  | NotImplementedError
  | AttributeError (msg : string).

Inductive result (A : Type) : Type :=
  | Ok (a : A)
  | Raise (e : exn).
Arguments Ok {A} a.
Arguments Raise {A} e.

#[global] Instance result_ret : MRet result := fun A a => Ok a.
#[global] Instance result_bind : MBind result := fun A B f m =>
  match m with
  | Ok a => f a
  | Raise e => Raise e
  end.

(** ** Strings *)

(** [c in chars] for a one-character string [c]. *)
Fixpoint char_in (c : ascii) (chars : string) : bool :=
  match chars with
  | EmptyString => false
  | String d chars' => Ascii.eqb c d || char_in c chars'
  end.

(** [str.isspace] on the code points below 256. *)
Definition isspace (c : ascii) : bool :=
  let n := nat_of_ascii c in
  (Nat.leb 9 n && Nat.leb n 13) || (Nat.leb 28 n && Nat.leb n 32)
  || Nat.eqb n 133 || Nat.eqb n 160.

(** [str.upper], character by character: the letters a-z.  The module
    uses [upper] only to test whether the result starts with the upper-case
    ASCII name of an interface type; what [str.upper] does to the other
    characters with codes below 256 does not change the outcome of that
    test. *)
Definition upper_char (c : ascii) : ascii :=
  let n := nat_of_ascii c in
  if Nat.leb 97 n && Nat.leb n 122 then ascii_of_nat (n - 32) else c.

Fixpoint upper (s : string) : string :=
  match s with
  | EmptyString => EmptyString
  | String c s' => String (upper_char c) (upper s')
  end.

(** [s.startswith(p)]. *)
Fixpoint startswith (s p : string) : bool :=
  match p, s with
  | EmptyString, _ => true
  | String _ _, EmptyString => false
  | String d p', String c s' => Ascii.eqb c d && startswith s' p'
  end.

(** [s.lstrip(chars)]: drops the leading characters that occur in [chars]
    (a set of characters, not a prefix). *)
Fixpoint lstrip (s chars : string) : string :=
  match s with
  | EmptyString => EmptyString
  | String c s' => if char_in c chars then lstrip s' chars else s
  end.

Fixpoint lstrip_space (s : string) : string :=
  match s with
  | EmptyString => EmptyString
  | String c s' => if isspace c then lstrip_space s' else s
  end.

Fixpoint rstrip_space (s : string) : string :=
  match s with
  | EmptyString => EmptyString
  | String c s' =>
      match rstrip_space s' with
      | EmptyString => if isspace c then EmptyString else String c EmptyString
      | r => String c r
      end
  end.

(** [s.strip()]. *)
Definition strip (s : string) : string := rstrip_space (lstrip_space s).

(** [s.split('::')]: the tokens between the occurrences of the separator,
    found from the left.  [push_char c l] puts [c] in front of the first
    token of [l]. *)
Definition push_char (c : ascii) (l : list string) : list string :=
  match l with
  | [] => [String c EmptyString]
  | t :: l' => String c t :: l'
  end.

Fixpoint split (s : string) : list string :=
  match s with
  | EmptyString => [EmptyString]
  | String c s' =>
      match s' with
      | String d s'' =>
          if Ascii.eqb c ":" && Ascii.eqb d ":"
          then EmptyString :: split s''
          else push_char c (split s')
      | EmptyString => [String c EmptyString]
      end
  end.

(** [s in msg] for strings: [s] occurs in [msg]. *)
Definition contains (msg s : string) : Prop :=
  exists pre post, msg = pre +:+ s +:+ post.

(** ** Values and dictionaries *)

(** Modelled from the spec: [constants.InterfaceType], the enumeration of
    the interface types, is imported from [pyvisa.constants], which is not
    part of the sources at hand; the spec lists its members. *)
Inductive InterfaceType : Type := asrl | gpib | pxi | tcpip | usb | vxi.

(** What a dictionary of resource parts holds: strings, the integer
    constant for a missing secondary address, an interface type. *)
Inductive value : Type :=
  | VStr (s : string)
  | VInt (n : Z)
  | VEnum (c : InterfaceType).

Abbreviation dict := (gmap string value).

(** The name of a member, as [str] shows it after the name of the
    enumeration.  No template refers to the interface type. *)
Definition InterfaceType_name (c : InterfaceType) : string :=
  match c with
  | asrl => "asrl" | gpib => "gpib" | pxi => "pxi"
  | tcpip => "tcpip" | usb => "usb" | vxi => "vxi"
  end.

(** [str(v)], as the conversion [%s] applies it. *)
Definition py_str (v : value) : string :=
  match v with
  | VStr s => s
  | VInt n => NilZero.string_of_int (Z.to_int n)
  | VEnum c => "InterfaceType." +:+ InterfaceType_name c
  end.

(** [d[k]]. *)
Definition getitem (d : dict) (k : string) : result value :=
  match d !! k with
  | Some v => Ok v
  | None => Raise KeyError
  end.

(** [key + c]. *)
Fixpoint snoc (key : string) (c : ascii) : string :=
  match key with
  | EmptyString => String c EmptyString
  | String k key' => String k (snoc key' c)
  end.

(** [template % d] for a dictionary [d].  The templates of this module
    hold literal text and conversions [%(key)s]; the escape [%%] is
    modelled too, and any other use of [%] is a [ValueError] here.  The
    scanner is in one of four states: in literal text, after a [%], inside
    the parentheses of a key, after the closing parenthesis. *)
Inductive fmt_state : Type :=
  | FLit
  | FPercent
  | FKey (key : string)
  | FConv (key : string).

Fixpoint format_from (st : fmt_state) (t : string) (d : dict) : result string :=
  match t with
  | EmptyString =>
      match st with
      | FLit => Ok EmptyString
      | _ => Raise (ValueError "incomplete format")
      end
  | String c t' =>
      match st with
      | FLit =>
          if Ascii.eqb c "%" then format_from FPercent t' d
          else r ← format_from FLit t' d; Ok (String c r)
      | FPercent =>
          if Ascii.eqb c "(" then format_from (FKey EmptyString) t' d
          else if Ascii.eqb c "%"
          then r ← format_from FLit t' d; Ok (String "%" r)
          else Raise (ValueError "unsupported format character")
      | FKey key =>
          if Ascii.eqb c ")" then format_from (FConv key) t' d
          else format_from (FKey (snoc key c)) t' d
      | FConv key =>
          if Ascii.eqb c "s"
          then v ← getitem d key; r ← format_from FLit t' d; Ok (py_str v +:+ r)
          else Raise (ValueError "unsupported format character")
      end
  end.

Definition format (template : string) (d : dict) : result string :=
  format_from FLit template d.

(** ** Subparsers *)

(** An instance of a subclass of [_BaseParserAssembler]: the two class
    attributes the methods read, and the method [parse] the class ends up
    with.  [parse] returns a dictionary or, when its body has no [return],
    [None]. *)
Record subparser : Type := Subparser {
  canonical_resource_name : string;
  defaults : dict;
  parse : string -> list string -> result (option dict)
}.

(** [_BaseParserAssembler.assemble]. *)
Definition assemble (self : subparser) (parts : dict) : result string :=
  let p := parts ∪ defaults self in
  format (canonical_resource_name self) p.

(** [_BaseParserAssembler.parse]. *)
Definition _BaseParserAssembler_parse (board : string) (parts : list string)
  : result (option dict) :=
  Raise NotImplementedError.

(** The class attributes of [_BaseParserAssembler]. *)
Definition _BaseParserAssembler_canonical_resource_name : string := "".
Definition _BaseParserAssembler_defaults : dict := ∅.

(** The body of a method that consists of a docstring. *)
Definition docstring_only (board : string) (parts : list string)
  : result (option dict) :=
  Ok None.

(** [if not board: board = self.defaults['board']]. *)
Definition board_or_default (defaults : dict) (board : string) : result value :=
  if String.eqb board "" then getitem defaults "board" else Ok (VStr board).

(** [_TCPIPInstr.parse]. *)
Definition _TCPIPInstr_parse (canonical : string) (defaults : dict)
    (board : string) (parts : list string) : result (option dict) :=
  board ← board_or_default defaults board;
  fields ← match parts with
           | [host_address; lan_device_name] =>
               Ok (VStr host_address, VStr lan_device_name)
           | [host_address] =>
               lan_device_name ← getitem defaults "lan_device_name";
               Ok (VStr host_address, lan_device_name)
           | _ => Raise (InvalidResourceName
                    "TCPIP[board]::host address[::LAN device name][::INSTR]")
           end;
  Ok (Some (<["board" := board]>
           (<["host_address" := fields.1]>
           (<["lan_device_name" := fields.2]>
           (<["canonical_resource_name" := VStr canonical]> ∅))))).

(** [_TCPIPSocket.parse]. *)
Definition _TCPIPSocket_parse (canonical : string) (defaults : dict)
    (board : string) (parts : list string) : result (option dict) :=
  board ← board_or_default defaults board;
  fields ← match parts with
           | [host_address; port] => Ok (VStr host_address, VStr port)
           | [host_address] =>
               port ← getitem defaults "port";
               Ok (VStr host_address, port)
           | _ => Raise (InvalidResourceName
                    "TCPIP[board]::host address::port::SOCKET")
           end;
  Ok (Some (<["board" := board]>
           (<["host_address" := fields.1]>
           (<["port" := fields.2]>
           (<["canonical_resource_name" := VStr canonical]> ∅))))).

(** The dictionary both USB subparsers return. *)
Definition usb_dict (canonical : string)
    (board manufacturer_id model_code serial_number usb_interface_number : value)
  : dict :=
  <["board" := board]>
  (<["manufacturer_id" := manufacturer_id]>
  (<["model_code" := model_code]>
  (<["serial_number" := serial_number]>
  (<["usb_interface_number" := usb_interface_number]>
  (<["canonical_resource_name" := VStr canonical]> ∅))))).

(** [_USBInstr.parse]. *)
Definition _USBInstr_parse (canonical : string) (defaults : dict)
    (board : string) (parts : list string) : result (option dict) :=
  board ← board_or_default defaults board;
  match parts with
  | [manufacturer_id; model_code; serial_number; usb_interface_number] =>
      Ok (Some (usb_dict canonical board (VStr manufacturer_id)
                  (VStr model_code) (VStr serial_number)
                  (VStr usb_interface_number)))
  | [manufacturer_id; model_code; serial_number] =>
      usb_interface_number ← getitem defaults "usb_interface_number";
      Ok (Some (usb_dict canonical board (VStr manufacturer_id)
                  (VStr model_code) (VStr serial_number)
                  usb_interface_number))
  | _ => Raise (InvalidResourceName
           "USB[board]::manufacturer ID::model code::serial number[::USB interface number][::INSTR]")
  end.

(** [_USBRaw.parse]: the defaults are the literals ['0'], not [self.defaults]. *)
Definition _USBRaw_parse (canonical : string) (defaults : dict)
    (board : string) (parts : list string) : result (option dict) :=
  let board := if String.eqb board "" then "0" else board in
  match parts with
  | [manufacturer_id; model_code; serial_number; usb_interface_number] =>
      Ok (Some (usb_dict canonical (VStr board) (VStr manufacturer_id)
                  (VStr model_code) (VStr serial_number)
                  (VStr usb_interface_number)))
  | [manufacturer_id; model_code; serial_number] =>
      Ok (Some (usb_dict canonical (VStr board) (VStr manufacturer_id)
                  (VStr model_code) (VStr serial_number) (VStr "0")))
  | _ => Raise (InvalidResourceName
           "USB[board]::manufacturer ID::model code::serial number[::USB interface number][::INSTR]")
  end.

(** [_ASRLInstr._asrl_instr], the only method the class [_ASRLInstr]
    defines.  Nothing calls it: the class does not define [parse]. *)
Definition _asrl_instr (board : string) (parts : list string)
  : result (option dict) :=
  if String.eqb board "" then Raise (ValueError "ASRL INSTR requires a board.")
  else match parts with
       | [] => Ok (Some (<["board" := VStr board]>
                        (<["canonical_resource_name" :=
                             VStr "ASRL%(board)s::INSTR"]> ∅)))
       | _ => Raise (InvalidResourceName "ASRLboard[::INSTR]")
       end.

(** ** Tactics to run the parser *)

(** Running the parser on a given name: [returns p] names the record that
    the call [p] returns, and [lookup_in E] reads a key of the record of
    [E : p = Ok out] by running [p]. *)
Ltac returns p :=
  let H := fresh "H" in
  assert (H : (p ≫= fun _ => Ok tt) = Ok tt) by (vm_compute; reflexivity);
  let out := fresh "out" in
  let E := fresh "E" in
  destruct p as [out|?] eqn:E; [clear H | discriminate H].

Ltac lookup_in E :=
  lazymatch type of E with
  | ?p = Ok ?out =>
      lazymatch goal with
      | |- out !! ?k = ?v =>
          let H := fresh "H" in
          assert (H : (p ≫= fun o => Ok (o !! k)) = Ok v)
            by (vm_compute; reflexivity);
          rewrite E in H; change (Ok (out !! k) = Ok v) in H;
          by injection H
      end
  end.

(** The value of [VI_NO_SEC_ADDR] in the VISA headers, [0xFFFF]: the
    instance of the constant at which the examples are run. *)
Definition VI_NO_SEC_ADDR_0xFFFF : value := VInt 65535.

(** ** The module, given the constant for a missing secondary address *)

Section Rnames.

(** [constants.VI_NO_SEC_ADDR] comes from [pyvisa.constants], which is not
    part of the sources at hand: it is a parameter of the development. *)
Variable VI_NO_SEC_ADDR : value.

(** [_INTERFACE_TYPES], in the order of the dictionary display.  The
    order does not matter to [call_subparser]: the names start with six
    different letters, so that at most one of them starts a given string. *)
Definition _INTERFACE_TYPES : list (string * InterfaceType) :=
  [("ASRL", asrl); ("GPIB", gpib); ("PXI", pxi);
   ("TCPIP", tcpip); ("USB", usb); ("VXI", vxi)].

Definition _RESOURCE_CLASSES : list string :=
  ["INSTR"; "INTFC"; "BACKPLANE"; "MEMACC"; "SOCKET"; "RAW"; "SERVANT"].

(** [parts[-1] in _RESOURCE_CLASSES]. *)
Definition is_resource_class (t : string) : bool :=
  bool_decide (t ∈ _RESOURCE_CLASSES).

(** *** The subparser classes

    A class assigns [canonical_resource_name] only when it spells the
    attribute that way; [_GPIBInstr] and [_PXIInstr] assign
    [canonical_ressource_name] and [_GPIBIntfc] assigns [canonical_name],
    attributes that no method reads, so that these three classes inherit
    the empty [canonical_resource_name] of the base class. *)

Definition _GPIBInstr_canonical_ressource_name : string :=
  "GPIB%(board)s::%(primary_address)s::%(secondary_address)s::INSTR".

Definition _GPIBInstr : subparser :=
  {| canonical_resource_name := _BaseParserAssembler_canonical_resource_name;
     defaults := <["board" := VStr "0"]>
                 (<["secondary_address" := VI_NO_SEC_ADDR]> ∅);
     parse := docstring_only |}.

Definition _GPIBIntfc_canonical_name : string := "GPIB%(board)s::INTFC".

Definition _GPIBIntfc : subparser :=
  {| canonical_resource_name := _BaseParserAssembler_canonical_resource_name;
     defaults := <["board" := VStr "0"]> ∅;
     parse := docstring_only |}.

Definition _ASRLInstr : subparser :=
  {| canonical_resource_name := "ASRL%(board)s::INSTR";
     defaults := <["board" := VStr "0"]> ∅;
     parse := _BaseParserAssembler_parse |}.

Definition _TCPIPInstr : subparser :=
  let canonical :=
    "TCPIP%(board)s::%(host_address)s::%(lan_device_name)s::INSTR" in
  let defaults : dict :=
    <["board" := VStr "0"]> (<["lan_device_name" := VStr "inst0"]> ∅) in
  {| canonical_resource_name := canonical;
     defaults := defaults;
     parse := _TCPIPInstr_parse canonical defaults |}.

Definition _TCPIPSocket : subparser :=
  let canonical := "TCPIP%(board)s::%(host_address)s::%(port)s::SOCKET" in
  let defaults : dict :=
    <["board" := VStr "0"]> (<["port" := VStr "inst0"]> ∅) in
  {| canonical_resource_name := canonical;
     defaults := defaults;
     parse := _TCPIPSocket_parse canonical defaults |}.

Definition _USBInstr : subparser :=
  let canonical :=
    "USB%(board)s::%(manufacturer_id)s::%(model_code)s::%(serial_number)s::%(usb_interface_number)s::INSTR" in
  let defaults : dict :=
    <["board" := VStr "0"]> (<["usb_interface_number" := VStr "0"]> ∅) in
  {| canonical_resource_name := canonical;
     defaults := defaults;
     parse := _USBInstr_parse canonical defaults |}.

Definition _USBRaw : subparser :=
  let canonical :=
    "USB%(board)s::%(manufacturer_id)s::%(model_code)s::%(serial_number)s::%(usb_interface_number)s::RAW" in
  let defaults : dict :=
    <["borad" := VStr "0"]> (<["usb_interface_number" := VStr "0"]> ∅) in
  {| canonical_resource_name := canonical;
     defaults := defaults;
     parse := _USBRaw_parse canonical defaults |}.

Definition _PXIInstr_canonical_ressource_name : string :=
  "PXI%(board)s::%(primary_address)s::INSTR".

Definition _PXIInstr : subparser :=
  {| canonical_resource_name := _BaseParserAssembler_canonical_resource_name;
     defaults := <["board" := VStr "0"]> ∅;
     parse := docstring_only |}.

(** *** The registry *)

(** [register_subparser(interface_type, resource_class)(cls)]: binds the
    pair to an instance of the class. *)
Definition register_subparser (interface_type resource_class : string)
    (cls : subparser) (registry : gmap (string * string) subparser)
  : gmap (string * string) subparser :=
  <[(interface_type, resource_class) := cls]> registry.

(** [_SUBPARSER] once the module is loaded: the decorators, in the order
    of the class definitions. *)
Definition _SUBPARSER : gmap (string * string) subparser :=
  register_subparser "PXI" "INSTR" _PXIInstr
  (register_subparser "USB" "RAW" _USBRaw
  (register_subparser "USB" "INSTR" _USBInstr
  (register_subparser "TCPIP" "SOCKET" _TCPIPSocket
  (register_subparser "TCPIP" "INSTR" _TCPIPInstr
  (register_subparser "ASRL" "INSTR" _ASRLInstr
  (register_subparser "GPIB" "INTFC" _GPIBIntfc
  (register_subparser "GPIB" "INSTR" _GPIBInstr ∅))))))).

(** *** [call_subparser] *)

(** The body of the loop of [call_subparser] once the interface type
    matches (lines 64-68). *)
Definition run_subparser (interface_type : string) (const : InterfaceType)
    (interface_type_part resource_class : string) (parts : list string)
  : result dict :=
  let first_part := lstrip interface_type_part interface_type in
  sub ← match _SUBPARSER !! (interface_type, resource_class) with
        | Some sub => Ok sub
        | None => Raise KeyError
        end;
  r ← parse sub first_part parts;
  out ← match r with
        | Some out => Ok out
        | None =>
            Raise (AttributeError "'NoneType' object has no attribute 'update'")
        end;
  let out := <["resource_class" := VStr resource_class]>
             (<["interface_type" := VEnum const]> out) in
  template ← getitem out "canonical_resource_name";
  canonical ← match template with
              | VStr template => format template out
              | _ => Raise (TypeError "unsupported operand type(s) for %")
              end;
  Ok (<["canonical_resource_name" := VStr canonical]> out).

Fixpoint call_subparser_loop (items : list (string * InterfaceType))
    (interface_type_part resource_class : string) (parts : list string)
  : result dict :=
  match items with
  | [] => Raise (ValueError ("Unknown interface type " +:+ interface_type_part))
  | (interface_type, const) :: items' =>
      if negb (startswith (upper interface_type_part) interface_type)
      then call_subparser_loop items' interface_type_part resource_class parts
      else run_subparser interface_type const
             interface_type_part resource_class parts
  end.

Definition call_subparser (interface_type_part resource_class : string)
    (parts : list string) : result dict :=
  call_subparser_loop _INTERFACE_TYPES interface_type_part resource_class parts.

(** *** [parse_resource_name] *)

(** Lines 86-91: the resource class and the parts left for the subparser,
    from the tokens that follow the first one. *)
Definition split_resource_class (parts : list string) : list string * string :=
  match parts with
  | [] => ([], "INSTR")
  | _ =>
      if is_resource_class (List.last parts "")
      then (removelast parts, List.last parts "")
      else (parts, "INSTR")
  end.

(** The [try] statement of lines 93-102 around the call [r] of
    [call_subparser]: the two [except] clauses, and the exceptions that
    neither catches. *)
Definition try_except (resource_name interface_type resource_class : string)
    (r : result dict) : result dict :=
  match r with
  | Ok out => Ok (<["resource_name" := VStr resource_name]> out)
  | Raise KeyError =>
      Raise (InvalidResourceName
               ("Invalid resource name: " +:+ resource_name +:+
                String "010" "Could find subparser for " +:+
                interface_type +:+ " and " +:+ resource_class))
  | Raise (InvalidResourceName e) =>
      Raise (InvalidResourceName
               ("Invalid resource name: " +:+ resource_name +:+
                String "010" "The syntax is " +:+ e))
  | Raise e => Raise e
  end.

Definition parse_resource_name (resource_name : string) : result dict :=
  match split (strip resource_name) with
  | [] => Raise IndexError
  | interface_type :: parts =>
      let '(parts, resource_class) := split_resource_class parts in
      try_except resource_name interface_type resource_class
        (call_subparser interface_type resource_class parts)
  end.

(** [assemble_ressource_name]: the body is [pass], the call returns
    [None]. *)
Definition assemble_ressource_name (ressource_parts : dict) : option string :=
  None.

(** [to_canonical_name]. *)
Definition to_canonical_name (resource_name : string) : result value :=
  out ← parse_resource_name resource_name;
  getitem out "canonical_resource_name".

(** ** Predicates used to state the properties *)

(** [t] holds no occurrence of the separator ["::"]. *)
Fixpoint no_separator (t : string) : bool :=
  match t with
  | EmptyString => true
  | String c t' =>
      match t' with
      | EmptyString => true
      | String d _ =>
          negb (Ascii.eqb c ":" && Ascii.eqb d ":") && no_separator t'
      end
  end.

(** [t.endswith(':')]. *)
Fixpoint ends_with_colon (t : string) : bool :=
  match t with
  | EmptyString => false
  | String c t' =>
      match t' with
      | EmptyString => Ascii.eqb c ":"
      | String _ _ => ends_with_colon t'
      end
  end.

(** A string that [split] gives back whole when it is followed by a
    separator. *)
Definition tokenlike (t : string) : bool :=
  no_separator t && negb (ends_with_colon t).

(** [if not board: board = '0'] on the first part of the resource name. *)
Definition board_of (interface_type interface_type_part : string) : string :=
  let first_part := lstrip interface_type_part interface_type in
  if String.eqb first_part "" then "0" else first_part.

(** What the subparsers that return a dictionary accept: the interface
    type, the resource class, the parts they are given, and the values of
    the fields after the board, defaults filled in. *)
Inductive accepts : string -> string -> list string -> list string -> Prop :=
  | accepts_tcpip_instr2 h l : accepts "TCPIP" "INSTR" [h; l] [h; l]
  | accepts_tcpip_instr1 h : accepts "TCPIP" "INSTR" [h] [h; "inst0"]
  | accepts_tcpip_socket2 h p : accepts "TCPIP" "SOCKET" [h; p] [h; p]
  | accepts_tcpip_socket1 h : accepts "TCPIP" "SOCKET" [h] [h; "inst0"]
  | accepts_usb_instr4 m c n u : accepts "USB" "INSTR" [m; c; n; u] [m; c; n; u]
  | accepts_usb_instr3 m c n : accepts "USB" "INSTR" [m; c; n] [m; c; n; "0"]
  | accepts_usb_raw4 m c n u : accepts "USB" "RAW" [m; c; n; u] [m; c; n; u]
  | accepts_usb_raw3 m c n : accepts "USB" "RAW" [m; c; n] [m; c; n; "0"].

(** The fields and the resource class, each after a separator. *)
Fixpoint join_fields (fields : list string) (resource_class : string) : string :=
  match fields with
  | [] => resource_class
  | f :: fields' => f +:+ "::" +:+ join_fields fields' resource_class
  end.

(** The canonical name the templates of the accepting subparsers spell:
    the name of the interface type, the board, the fields and the resource
    class, separated by ["::"]. *)
Definition canonical_of (interface_type board : string) (fields : list string)
    (resource_class : string) : string :=
  interface_type +:+ board +:+ "::" +:+ join_fields fields resource_class.

(** What [split] returns: no token holds a separator, no token but the
    last ends with a colon, and the first token is either empty, in front
    of a separator, or starts with the first character of the string. *)
Definition tokens_of (s : string) (l : list string) : Prop :=
  Forall (fun t => no_separator t = true) l /\
  Forall (fun t => ends_with_colon t = false) (removelast l) /\
  match s, l with
  | _, [] => False
  | EmptyString, _ => True
  | String d _, t :: l' =>
      (t = "" /\ l' <> [] /\ d = ":"%char) \/ (exists t', t = String d t')
  end.

(** The fields of a record: the record without the four entries that
    [call_subparser] and [parse_resource_name] add to what the subparser
    returns or fill in, [interface_type], [resource_class],
    [canonical_resource_name] and [resource_name]. *)
Definition fields_of (out : dict) : dict :=
  delete "resource_name"
    (delete "canonical_resource_name"
       (delete "interface_type" (delete "resource_class" out))).

(** What a record returned for the parts [parts] holds: the canonical name
    that the template of the subparser spells, the resource class, the
    interface type, and entries from which the subparser assembles the
    same canonical name, from the whole record or from its fields alone,
    whatever [resource_name] is stored beside them. *)
Definition record_of (interface_type : string) (const : InterfaceType)
    (interface_type_part resource_class : string) (fields : list string)
    (out : dict) : Prop :=
  let c := canonical_of interface_type
             (board_of interface_type interface_type_part)
             fields resource_class in
  out !! "canonical_resource_name" = Some (VStr c) /\
  out !! "resource_class" = Some (VStr resource_class) /\
  out !! "interface_type" = Some (VEnum const) /\
  exists sub, _SUBPARSER !! (interface_type, resource_class) = Some sub /\
    forall name,
      assemble sub (<["resource_name" := VStr name]> out) = Ok c /\
      assemble sub (fields_of (<["resource_name" := VStr name]> out)) = Ok c.

(** The way through [parse_resource_name] of a name that is accepted: its
    tokens, the resource class, the interface type whose name starts the
    first token, and parts that the subparser accepts. *)
Inductive parses (resource_name interface_type : string) (const : InterfaceType)
    (resource_class interface_type_part : string) (fields : list string)
  : Prop :=
  | Parses (rest parts : list string) :
      split (strip resource_name) = interface_type_part :: rest ->
      split_resource_class rest = (parts, resource_class) ->
      (interface_type, const) ∈ _INTERFACE_TYPES ->
      startswith (upper interface_type_part) interface_type = true ->
      accepts interface_type resource_class parts fields ->
      parses resource_name interface_type const
        resource_class interface_type_part fields.

(** What the names of an accepting subparser are made of. *)
Definition plain_names (it rc : string) : Prop :=
  (exists c0 it', it = String c0 it' /\ isspace c0 = false) /\
  upper it = it /\
  forallb (fun c => char_in c it) (list_ascii_of_string it) = true /\
  char_in "0" it = false /\
  forallb (fun c => negb (Ascii.eqb c ":")) (list_ascii_of_string it) = true /\
  rc <> "" /\ rstrip_space rc = rc /\ no_separator rc = true /\
  is_resource_class rc = true.

(** The keywords of the [dict(...)] that the accepting subparsers
    return, after [board] and in the order of the parts. *)
Definition field_names (interface_type resource_class : string) : list string :=
  if String.eqb interface_type "TCPIP"
  then if String.eqb resource_class "SOCKET"
       then ["host_address"; "port"]
       else ["host_address"; "lan_device_name"]
  else ["manufacturer_id"; "model_code"; "serial_number";
        "usb_interface_number"].

(** The strings that the [raise InvalidResourceName] of the TCPIP and USB
    subparsers carry; [_USBRaw.parse] raises with the string of
    [_USBInstr.parse]. *)
Definition syntax_of (interface_type resource_class : string) : string :=
  if String.eqb interface_type "TCPIP"
  then if String.eqb resource_class "SOCKET"
       then "TCPIP[board]::host address::port::SOCKET"
       else "TCPIP[board]::host address[::LAN device name][::INSTR]"
  else "USB[board]::manufacturer ID::model code::serial number[::USB interface number][::INSTR]".

(** The numbers of parts that the TCPIP and USB subparsers take. *)
Definition arity_ok (interface_type : string) (parts : list string) : bool :=
  if String.eqb interface_type "TCPIP"
  then Nat.eqb (length parts) 1 || Nat.eqb (length parts) 2
  else Nat.eqb (length parts) 3 || Nat.eqb (length parts) 4.

(** The fields that the TCPIP and USB subparsers make of their parts: the
    parts, and the default of the last field when it is left out. *)
Definition fill_defaults (interface_type : string) (parts : list string)
  : list string :=
  if String.eqb interface_type "TCPIP"
  then if Nat.eqb (length parts) 1 then parts ++ ["inst0"] else parts
  else if Nat.eqb (length parts) 3 then parts ++ ["0"] else parts.

(** The pairs registered with a subparser that takes parts. *)
Definition takes_parts (interface_type resource_class : string) : Prop :=
  (interface_type, resource_class) ∈
    [("TCPIP", "INSTR"); ("TCPIP", "SOCKET"); ("USB", "INSTR"); ("USB", "RAW")].

(** ** Lemmas on strings *)

Lemma append_cons (x : ascii) (a b : string) :
  String x a +:+ b = String x (a +:+ b).
Proof. reflexivity. Qed.

Lemma append_empty_l (b : string) : "" +:+ b = b.
Proof. reflexivity. Qed.

Lemma append_assoc (a b c : string) : (a +:+ b) +:+ c = a +:+ (b +:+ c).
Proof.
  induction a as [|x a IH]; [reflexivity |].
  by rewrite !append_cons, IH.
Qed.

(** Stripping twice strips once. *)
Lemma lstrip_idempotent (s chars : string) :
  lstrip (lstrip s chars) chars = lstrip s chars.
Proof.
  induction s as [|x s IH]; simpl; [reflexivity |].
  destruct (char_in x chars) eqn:Hx; [exact IH |].
  simpl. by rewrite Hx.
Qed.

Lemma lstrip_space_keeps (c : ascii) (s : string) :
  isspace c = false -> lstrip_space (String c s) = String c s.
Proof. intros H. simpl. by rewrite H. Qed.

Lemma rstrip_space_append (a b : string) :
  b <> "" -> rstrip_space b = b -> rstrip_space (a +:+ b) = a +:+ b.
Proof.
  intros Hne Hb. induction a as [|x a IH]; [exact Hb |].
  rewrite append_cons. cbn [rstrip_space]. rewrite IH.
  destruct (a +:+ b) eqn:E; [| reflexivity].
  destruct a; [by rewrite append_empty_l in E | by rewrite append_cons in E].
Qed.

(** *** Tokens *)

Lemma split_step (c d : ascii) (s : string) :
  split (String c (String d s)) =
  if Ascii.eqb c ":" && Ascii.eqb d ":" then "" :: split s
  else push_char c (split (String d s)).
Proof. reflexivity. Qed.

Lemma no_separator_step (c d : ascii) (t : string) :
  no_separator (String c (String d t)) =
  negb (Ascii.eqb c ":" && Ascii.eqb d ":") && no_separator (String d t).
Proof. reflexivity. Qed.

Lemma ends_with_colon_step (c d : ascii) (t : string) :
  ends_with_colon (String c (String d t)) = ends_with_colon (String d t).
Proof. reflexivity. Qed.

Lemma tokenlike_tail (c : ascii) (t : string) :
  tokenlike (String c t) = true -> tokenlike t = true.
Proof.
  unfold tokenlike. destruct t as [|d t]; [reflexivity |].
  rewrite no_separator_step, ends_with_colon_step, !andb_true_iff. tauto.
Qed.

Lemma tokenlike_cons (c : ascii) (t : string) :
  Ascii.eqb c ":" = false -> tokenlike t = true -> tokenlike (String c t) = true.
Proof.
  unfold tokenlike. intros Hc. destruct t as [|d t].
  - simpl. by rewrite Hc.
  - rewrite no_separator_step, ends_with_colon_step, Hc. simpl. tauto.
Qed.

Lemma tokenlike_lstrip (s chars : string) :
  tokenlike s = true -> tokenlike (lstrip s chars) = true.
Proof.
  induction s as [|x s IH]; simpl; [done |].
  intros H. destruct (char_in x chars); [| exact H].
  apply IH. by eapply tokenlike_tail.
Qed.

Lemma split_nonempty (s : string) : split s <> [].
Proof.
  destruct s as [|c [|d s]]; [discriminate | discriminate |].
  rewrite split_step.
  destruct (Ascii.eqb c ":" && Ascii.eqb d ":"); [discriminate |].
  destruct (split (String d s)); discriminate.
Qed.

Lemma split_whole (t : string) : no_separator t = true -> split t = [t].
Proof.
  induction t as [|c t IH]; [reflexivity |].
  destruct t as [|d t]; [reflexivity |].
  rewrite no_separator_step, split_step, andb_true_iff, negb_true_iff.
  intros [-> H]. by rewrite (IH H).
Qed.

Lemma separator_append (r : string) : "::" +:+ r = String ":" (String ":" r).
Proof. reflexivity. Qed.

Lemma split_separator (r : string) :
  split (String ":" (String ":" r)) = "" :: split r.
Proof. reflexivity. Qed.

Lemma split_token (t r : string) :
  tokenlike t = true -> split (t +:+ "::" +:+ r) = t :: split r.
Proof.
  rewrite separator_append.
  induction t as [|c t IH]; [intros _; by rewrite append_empty_l |].
  intros H. pose proof (tokenlike_tail _ _ H) as Ht.
  specialize (IH Ht). revert H. unfold tokenlike.
  rewrite append_cons. destruct t as [|d t].
  - rewrite append_empty_l, split_step, split_separator. simpl.
    destruct (Ascii.eqb c ":"); [discriminate | reflexivity].
  - rewrite append_cons in *. rewrite no_separator_step, split_step.
    destruct (Ascii.eqb c ":" && Ascii.eqb d ":"); [discriminate |].
    intros _. by rewrite IH.
Qed.

Lemma tokens_of_push (c d : ascii) (s : string) (l : list string) :
  Ascii.eqb c ":" && Ascii.eqb d ":" = false ->
  tokens_of (String d s) l -> tokens_of (String c (String d s)) (push_char c l).
Proof.
  intros Hcd (Hsep & Hcolon & Hhead).
  destruct l as [|t l]; [done |]. cbn [push_char].
  apply Forall_cons in Hsep as [Ht Hsep].
  assert (Hc : d = ":"%char -> Ascii.eqb c ":" = false).
  { intros ->. by rewrite Ascii.eqb_refl, andb_true_r in Hcd. }
  split_and!.
  - apply Forall_cons. split; [| exact Hsep].
    destruct Hhead as [(-> & _ & _) | [t' ->]]; [reflexivity |].
    by rewrite no_separator_step, Hcd, Ht.
  - destruct l as [|u l]; [constructor |].
    change (removelast (String c t :: u :: l))
      with (String c t :: removelast (u :: l)).
    change (removelast (t :: u :: l)) with (t :: removelast (u :: l)) in Hcolon.
    apply Forall_cons in Hcolon as [Hcolon Hrest].
    apply Forall_cons. split; [| exact Hrest].
    destruct Hhead as [(-> & _ & ->) | [t' ->]].
    + simpl. by apply Hc.
    + by rewrite ends_with_colon_step.
  - right. by eexists.
Qed.

Lemma split_tokens_of (s : string) : tokens_of s (split s).
Proof.
  enough (tokens_of s (split s) /\
          forall c, tokens_of (String c s) (split (String c s))) by tauto.
  induction s as [|d s [IH1 IH2]].
  - split; [| intros c]; unfold tokens_of; cbn [split removelast];
      (split_and!; [by repeat constructor | by constructor |]);
      [done | right; by eexists].
  - split; [apply IH2 |]. intros c. rewrite split_step.
    destruct (Ascii.eqb c ":" && Ascii.eqb d ":") eqn:Hcd.
    + apply andb_true_iff in Hcd as [Hc%Ascii.eqb_eq Hd%Ascii.eqb_eq].
      subst c d. destruct IH1 as (Hsep & Hcolon & Hhead).
      pose proof (split_nonempty s) as Hne.
      split_and!.
      * by apply Forall_cons.
      * destruct (split s) as [|u l]; [done |].
        change (removelast ("" :: u :: l)) with ("" :: removelast (u :: l)).
        by apply Forall_cons.
      * by left.
    + apply tokens_of_push; [exact Hcd | apply IH2].
Qed.

(** When the last token does not end with a colon, every token of the
    string can be followed by a separator and found again by [split]. *)
Lemma split_tokenlike (s : string) :
  ends_with_colon (List.last (split s) "") = false ->
  Forall (fun t => tokenlike t = true) (split s).
Proof.
  intros Hlast. destruct (split_tokens_of s) as (Hsep & Hcolon & _).
  induction (split s) as [|t l IH]; [constructor |].
  apply Forall_cons in Hsep as [Ht Hsep]. destruct l as [|u l].
  - repeat constructor. unfold tokenlike. simpl in Hlast. by rewrite Ht, Hlast.
  - change (removelast (t :: u :: l)) with (t :: removelast (u :: l)) in Hcolon.
    apply Forall_cons in Hcolon as [Hc Hcolon].
    apply Forall_cons. split.
    + unfold tokenlike. by rewrite Ht, Hc.
    + apply IH; done.
Qed.

(** ** Lemmas on the registry and on [call_subparser] *)

(** The bindings of the registry, and nothing else. *)
Lemma registry_inv (interface_type resource_class : string) (sub : subparser) :
  _SUBPARSER !! (interface_type, resource_class) = Some sub ->
  (interface_type, resource_class, sub) ∈
    [("GPIB", "INSTR", _GPIBInstr); ("GPIB", "INTFC", _GPIBIntfc);
     ("ASRL", "INSTR", _ASRLInstr); ("TCPIP", "INSTR", _TCPIPInstr);
     ("TCPIP", "SOCKET", _TCPIPSocket); ("USB", "INSTR", _USBInstr);
     ("USB", "RAW", _USBRaw); ("PXI", "INSTR", _PXIInstr)].
Proof.
  unfold _SUBPARSER, register_subparser.
  rewrite !lookup_insert_Some, lookup_empty.
  intros H.
  repeat (destruct H as [[[= <- <-] <-] | [_ H]]; [set_solver |]).
  done.
Qed.

Lemma registry_tcpip_instr :
  _SUBPARSER !! ("TCPIP", "INSTR") = Some _TCPIPInstr.
Proof. reflexivity. Qed.

Lemma registry_tcpip_socket :
  _SUBPARSER !! ("TCPIP", "SOCKET") = Some _TCPIPSocket.
Proof. reflexivity. Qed.

Lemma registry_usb_instr : _SUBPARSER !! ("USB", "INSTR") = Some _USBInstr.
Proof. reflexivity. Qed.

Lemma registry_usb_raw : _SUBPARSER !! ("USB", "RAW") = Some _USBRaw.
Proof. reflexivity. Qed.

Ltac eval_run_subparser :=
  unfold run_subparser, board_of; cbv zeta;
  rewrite ?registry_tcpip_instr, ?registry_tcpip_socket,
    ?registry_usb_instr, ?registry_usb_raw;
  unfold _TCPIPInstr, _TCPIPInstr_parse, _TCPIPSocket, _TCPIPSocket_parse,
    _USBInstr, _USBInstr_parse, _USBRaw, _USBRaw_parse, board_or_default;
  cbn [mbind result_bind parse].

(** The subparsers that accept the parts return a record of them. *)
Lemma run_subparser_accepts (interface_type : string) (const : InterfaceType)
    (interface_type_part resource_class : string) (parts fields : list string) :
  accepts interface_type resource_class parts fields ->
  exists out,
    run_subparser interface_type const interface_type_part resource_class parts
      = Ok out /\
    record_of interface_type const interface_type_part resource_class fields out.
Proof.
  unfold record_of, board_of. cbv zeta.
  destruct 1;
    match goal with
    | |- context [String.eqb (lstrip ?s ?chars) ""] =>
        destruct (String.eqb (lstrip s chars) "") eqn:E
    end;
    eexists; (split; [eval_run_subparser; rewrite E; reflexivity |]);
    (split_and!; [reflexivity .. |]); eexists; (split; [reflexivity |]);
    intros name; split; reflexivity.
Qed.

(** Only accepted parts make [run_subparser] return. *)
Lemma run_subparser_Ok_accepts (interface_type : string) (const : InterfaceType)
    (interface_type_part resource_class : string) (parts : list string)
    (out : dict) :
  run_subparser interface_type const interface_type_part resource_class parts
    = Ok out ->
  exists fields, accepts interface_type resource_class parts fields.
Proof.
  unfold run_subparser. cbv zeta.
  destruct (_SUBPARSER !! (interface_type, resource_class)) as [sub|] eqn:Hreg;
    [| discriminate].
  apply registry_inv in Hreg.
  rewrite !elem_of_cons, elem_of_nil in Hreg.
  destruct Hreg as [H|[H|[H|[H|[H|[H|[H|[H|[]]]]]]]]];
    injection H as -> -> ->; try discriminate;
    unfold _TCPIPInstr, _TCPIPInstr_parse, _TCPIPSocket, _TCPIPSocket_parse,
      _USBInstr, _USBInstr_parse, _USBRaw, _USBRaw_parse, board_or_default;
    cbn [mbind result_bind parse];
    destruct (String.eqb (lstrip interface_type_part _) "");
    destruct parts as [|p1 [|p2 [|p3 [|p4 [|p5 parts]]]]];
    try discriminate; intros _; eexists; constructor.
Qed.

Lemma run_subparser_Ok (interface_type : string) (const : InterfaceType)
    (interface_type_part resource_class : string) (parts : list string)
    (out : dict) :
  run_subparser interface_type const interface_type_part resource_class parts
    = Ok out ->
  exists fields,
    accepts interface_type resource_class parts fields /\
    record_of interface_type const interface_type_part resource_class fields out.
Proof.
  intros Hrun.
  destruct (run_subparser_Ok_accepts _ _ _ _ _ _ Hrun) as [fields Hacc].
  exists fields. split; [exact Hacc |].
  destruct (run_subparser_accepts _ const interface_type_part _ _ _ Hacc)
    as (out' & Hrun' & Hrec).
  rewrite Hrun in Hrun'. by injection Hrun' as ->.
Qed.

(** *** The loop over the interface types *)

Lemma startswith_head (s p : string) (c : ascii) :
  startswith s (String c p) = true -> exists u, s = String c u.
Proof.
  destruct s as [|x s]; [discriminate |]. simpl.
  destruct (Ascii.eqb_spec x c) as [-> |]; [| discriminate]. by eexists.
Qed.

(** The loop runs the subparser of the interface type whose name starts
    the first part: the names start with six different letters, so that
    no other name does. *)
Lemma call_subparser_run (interface_type : string) (const : InterfaceType)
    (interface_type_part resource_class : string) (parts : list string) :
  (interface_type, const) ∈ _INTERFACE_TYPES ->
  startswith (upper interface_type_part) interface_type = true ->
  call_subparser interface_type_part resource_class parts =
  run_subparser interface_type const interface_type_part resource_class parts.
Proof.
  unfold call_subparser, _INTERFACE_TYPES.
  rewrite !elem_of_cons, elem_of_nil.
  intros [H|[H|[H|[H|[H|[H|[]]]]]]] Hstart; injection H as -> ->;
    cbn [call_subparser_loop];
    destruct (startswith_head _ _ _ Hstart) as [u Hu];
    rewrite Hu in *; cbn [startswith Ascii.eqb Bool.eqb andb negb] in *;
    by rewrite ?Hstart.
Qed.

(** The outcomes of [call_subparser]. *)
Lemma call_subparser_cases (interface_type_part resource_class : string)
    (parts : list string) :
  (exists interface_type const,
      (interface_type, const) ∈ _INTERFACE_TYPES /\
      startswith (upper interface_type_part) interface_type = true /\
      call_subparser interface_type_part resource_class parts =
      run_subparser interface_type const
        interface_type_part resource_class parts) \/
  ((forall interface_type const,
      (interface_type, const) ∈ _INTERFACE_TYPES ->
      startswith (upper interface_type_part) interface_type = false) /\
   call_subparser interface_type_part resource_class parts =
   Raise (ValueError ("Unknown interface type " +:+ interface_type_part))).
Proof.
  destruct (existsb (fun item => startswith (upper interface_type_part) item.1)
              _INTERFACE_TYPES) eqn:E.
  - left. apply existsb_exists in E as ([it const] & Hin & Hstart).
    apply list_elem_of_In in Hin.
    exists it, const. split_and!; [done | done |].
    by apply call_subparser_run.
  - right. assert (Hnone : forall it const, (it, const) ∈ _INTERFACE_TYPES ->
               startswith (upper interface_type_part) it = false).
    { intros it const Hin. apply list_elem_of_In in Hin.
      destruct (startswith (upper interface_type_part) it) eqn:Hs; [| done].
      assert (existsb (fun item => startswith (upper interface_type_part) item.1)
                _INTERFACE_TYPES = true) as Hex; [| congruence].
      apply existsb_exists. by exists (it, const). }
    split; [exact Hnone |].
    unfold call_subparser, _INTERFACE_TYPES in *.
    cbn [call_subparser_loop].
    rewrite (Hnone "ASRL" asrl), (Hnone "GPIB" gpib), (Hnone "PXI" pxi),
      (Hnone "TCPIP" tcpip), (Hnone "USB" usb), (Hnone "VXI" vxi)
      by (rewrite !elem_of_cons; tauto).
    reflexivity.
Qed.

(** ** Lemmas on [parse_resource_name] *)

Lemma split_resource_class_parts (rest parts : list string) (rc : string) :
  split_resource_class rest = (parts, rc) -> exists tail, rest = parts ++ tail.
Proof.
  unfold split_resource_class. destruct rest as [|t rest].
  - intros [= <- <-]. by exists [].
  - destruct (is_resource_class _); intros [= <- <-].
    + exists [List.last (t :: rest) ""]. by apply app_removelast_last.
    + exists []. by rewrite app_nil_r.
Qed.

Lemma split_resource_class_snoc (fields : list string) (rc : string) :
  is_resource_class rc = true ->
  split_resource_class (fields ++ [rc]) = (fields, rc).
Proof.
  intros Hrc. unfold split_resource_class.
  destruct (fields ++ [rc]) as [|t l] eqn:E; [by destruct fields |].
  rewrite <- E, last_last, removelast_last, Hrc. reflexivity.
Qed.

Lemma parse_resource_name_tokens (resource_name first : string)
    (rest parts : list string) (rc : string) :
  split (strip resource_name) = first :: rest ->
  split_resource_class rest = (parts, rc) ->
  parse_resource_name resource_name =
  try_except resource_name first rc (call_subparser first rc parts).
Proof. intros Hs Hc. unfold parse_resource_name. by rewrite Hs, Hc. Qed.

Lemma parse_resource_name_parses (s it : string) (const : InterfaceType)
    (rc first : string) (fields : list string) :
  parses s it const rc first fields ->
  exists out, parse_resource_name s = Ok (<["resource_name" := VStr s]> out) /\
              record_of it const first rc fields out.
Proof.
  intros [rest parts Hs Hc Hit Hstart Hacc].
  destruct (run_subparser_accepts it const first rc parts fields Hacc)
    as (out & Hrun & Hrec).
  exists out. split; [| exact Hrec].
  rewrite (parse_resource_name_tokens _ _ _ _ _ Hs Hc).
  by rewrite (call_subparser_run it const), Hrun.
Qed.

Lemma parse_resource_name_Ok (s : string) (out : dict) :
  parse_resource_name s = Ok out ->
  exists it const rc first fields out',
    parses s it const rc first fields /\
    out = <["resource_name" := VStr s]> out' /\
    record_of it const first rc fields out'.
Proof.
  intros Hp. pose proof (split_nonempty (strip s)) as Hne.
  destruct (split (strip s)) as [|first rest] eqn:Hs; [done |].
  destruct (split_resource_class rest) as [parts rc] eqn:Hc.
  rewrite (parse_resource_name_tokens _ _ _ _ _ Hs Hc) in Hp.
  destruct (call_subparser_cases first rc parts)
    as [(it & const & Hit & Hstart & Hcall) | [_ Hcall]];
    rewrite Hcall in Hp; [| discriminate].
  destruct (run_subparser it const first rc parts) as [out'|e] eqn:Hrun;
    [| by destruct e].
  injection Hp as <-.
  destruct (run_subparser_Ok _ _ _ _ _ _ Hrun) as (fields & Hacc & Hrec).
  exists it, const, rc, first, fields, out'.
  split_and!; [by econstructor | done | done].
Qed.

(** *** Parsing a canonical name again *)

Lemma lstrip_prefix (p s chars : string) :
  forallb (fun c => char_in c chars) (list_ascii_of_string p) = true ->
  lstrip (p +:+ s) chars = lstrip s chars.
Proof.
  induction p as [|c p IH]; [reflexivity |].
  cbn [list_ascii_of_string forallb]. rewrite andb_true_iff. intros [Hc Hp].
  rewrite append_cons. cbn [lstrip]. rewrite Hc. by apply IH.
Qed.

Lemma lstrip_board_of (it first : string) :
  char_in "0" it = false ->
  lstrip (board_of it first) it = board_of it first /\ board_of it first <> "".
Proof.
  intros H0. unfold board_of. cbv zeta.
  destruct (String.eqb_spec (lstrip first it) "") as [E|E].
  - cbn [lstrip]. by rewrite H0.
  - split; [apply lstrip_idempotent | exact E].
Qed.

(** The board of a canonical name is the board it was spelled with. *)
Lemma board_of_canonical (it first : string) :
  forallb (fun c => char_in c it) (list_ascii_of_string it) = true ->
  char_in "0" it = false ->
  board_of it (it +:+ board_of it first) = board_of it first.
Proof.
  intros Hit H0. destruct (lstrip_board_of it first H0) as [Hb Hne].
  unfold board_of at 1. cbv zeta. rewrite (lstrip_prefix _ _ _ Hit), Hb.
  by destruct (String.eqb_spec (board_of it first) "").
Qed.

Lemma upper_append (a b : string) : upper (a +:+ b) = upper a +:+ upper b.
Proof.
  induction a as [|c a IH]; [reflexivity |].
  rewrite append_cons. cbn [upper]. by rewrite IH, append_cons.
Qed.

Lemma startswith_append (p s : string) : startswith (p +:+ s) p = true.
Proof.
  induction p as [|c p IH]; [by destruct s |].
  rewrite append_cons. cbn [startswith]. by rewrite Ascii.eqb_refl, IH.
Qed.

Lemma tokenlike_prefix (p t : string) :
  forallb (fun c => negb (Ascii.eqb c ":")) (list_ascii_of_string p) = true ->
  tokenlike t = true -> tokenlike (p +:+ t) = true.
Proof.
  induction p as [|c p IH]; [done |].
  cbn [list_ascii_of_string forallb]. rewrite andb_true_iff, negb_true_iff.
  intros [Hc Hp] Ht. rewrite append_cons. apply tokenlike_cons; auto.
Qed.

Lemma tokenlike_board_of (it first : string) :
  tokenlike first = true -> tokenlike (board_of it first) = true.
Proof.
  intros H. unfold board_of. cbv zeta.
  destruct (String.eqb _ _); [reflexivity | by apply tokenlike_lstrip].
Qed.

Lemma split_join_fields (fields : list string) (rc : string) :
  Forall (fun t => tokenlike t = true) fields -> no_separator rc = true ->
  split (join_fields fields rc) = fields ++ [rc].
Proof.
  intros Hf Hrc. induction Hf as [|f fields Hf _ IH]; cbn [join_fields].
  - by apply split_whole.
  - by rewrite split_token, IH.
Qed.

Lemma rstrip_space_join_fields (fields : list string) (rc : string) :
  rc <> "" -> rstrip_space rc = rc ->
  join_fields fields rc <> "" /\
  rstrip_space (join_fields fields rc) = join_fields fields rc.
Proof.
  intros Hne Hrc. induction fields as [|f fields [IH1 IH2]]; cbn [join_fields].
  - done.
  - assert ("::" +:+ join_fields fields rc <> "") as Hsep by done.
    split.
    + destruct f; [by rewrite append_empty_l | by rewrite append_cons].
    + apply rstrip_space_append; [exact Hsep |].
      by apply rstrip_space_append.
Qed.

(** The canonical name of accepted parts keeps its tokens: [strip] leaves
    it alone and [split] finds the interface type with the board, the
    fields and the resource class. *)
Lemma split_canonical_of (c0 : ascii) (it board : string) (fields : list string)
    (rc : string) :
  isspace c0 = false -> rc <> "" -> rstrip_space rc = rc ->
  no_separator rc = true ->
  tokenlike (String c0 it +:+ board) = true ->
  Forall (fun t => tokenlike t = true) fields ->
  split (strip (canonical_of (String c0 it) board fields rc)) =
  (String c0 it +:+ board) :: fields ++ [rc].
Proof.
  intros Hc0 Hne Hrc Hsep Hfirst Hfields.
  destruct (rstrip_space_join_fields fields rc Hne Hrc) as [Hj1 Hj2].
  unfold canonical_of, strip.
  rewrite append_cons, (lstrip_space_keeps _ _ Hc0), <- append_cons.
  rewrite <- append_assoc.
  rewrite rstrip_space_append; [| done | by apply rstrip_space_append].
  by rewrite split_token, split_join_fields.
Qed.

Lemma accepts_plain_names (it rc : string) (parts fields : list string) :
  accepts it rc parts fields -> plain_names it rc.
Proof.
  destruct 1; (split; [by eexists _, _ |]); by split_and!.
Qed.

Lemma accepts_fields (it rc : string) (parts fields : list string) :
  accepts it rc parts fields -> accepts it rc fields fields.
Proof. destruct 1; constructor. Qed.

Lemma accepts_tokenlike (it rc : string) (parts fields : list string) :
  accepts it rc parts fields ->
  Forall (fun t => tokenlike t = true) parts ->
  Forall (fun t => tokenlike t = true) fields.
Proof.
  destruct 1; rewrite !Forall_cons; intros H; split_and!; by destruct_and?.
Qed.

(** The canonical name of a name that is accepted and whose tokens can
    stand before a separator is accepted again, with the same type, class,
    board and fields. *)
Lemma canonical_parses (s it : string) (const : InterfaceType)
    (rc first : string) (fields : list string) :
  parses s it const rc first fields ->
  Forall (fun t => tokenlike t = true) (split (strip s)) ->
  parses (canonical_of it (board_of it first) fields rc) it const rc
    (it +:+ board_of it first) fields /\
  board_of it (it +:+ board_of it first) = board_of it first.
Proof.
  intros [rest parts Hs Hc Hit Hstart Hacc] Htok.
  destruct (accepts_plain_names _ _ _ _ Hacc)
    as ((c0 & it' & -> & Hc0) & Hup & Hself & H0 & Hcolon & Hne & Hrs & Hsep & Hrc).
  rewrite Hs in Htok. apply Forall_cons in Htok as [Hfirst Hrest].
  destruct (split_resource_class_parts _ _ _ Hc) as [tail ->].
  apply Forall_app in Hrest as [Hparts _].
  pose proof (accepts_tokenlike _ _ _ _ Hacc Hparts) as Hfields.
  split; [| by apply board_of_canonical].
  apply Parses with (rest := fields ++ [rc]) (parts := fields).
  - apply split_canonical_of; try done.
    apply tokenlike_prefix; [done |]. by apply tokenlike_board_of.
  - by apply split_resource_class_snoc.
  - exact Hit.
  - rewrite upper_append, Hup. apply startswith_append.
  - by eapply accepts_fields.
Qed.

(** ** Properties of the parser *)

(** C1: the round trip of parsing and assembling fails for the GPIB
    instrument ["GPIB::14"]: [parse_resource_name] raises
    [AttributeError], so that there is neither a field mapping nor a
    canonical name, and [to_canonical_name] raises as well; from the
    fields that the name stands for, [_GPIBInstr] assembles the empty
    string, and the function [assemble_ressource_name] of the module
    returns [None]. *)
Theorem round_trip_gpib_example :
  let fields : dict :=
    <["board" := VStr "0"]>
    (<["primary_address" := VStr "14"]>
    (<["secondary_address" := VI_NO_SEC_ADDR]> ∅)) in
  parse_resource_name "GPIB::14" =
    Raise (AttributeError "'NoneType' object has no attribute 'update'") /\
  to_canonical_name "GPIB::14" =
    Raise (AttributeError "'NoneType' object has no attribute 'update'") /\
  _SUBPARSER !! ("GPIB", "INSTR") = Some _GPIBInstr /\
  assemble _GPIBInstr fields = Ok "" /\
  assemble_ressource_name fields = None.
Proof. intros fields. split_and!; reflexivity. Qed.

(** X20: whenever [parse_resource_name] returns a record, the subparser
    registered for the interface type and the resource class of the record
    assembles, from the record as from its fields alone, exactly the
    canonical name that the record holds. *)
Theorem assemble_parsed_record (s : string) (out : dict) :
  parse_resource_name s = Ok out ->
  exists it const rc sub c,
    (it, const) ∈ _INTERFACE_TYPES /\
    out !! "interface_type" = Some (VEnum const) /\
    out !! "resource_class" = Some (VStr rc) /\
    _SUBPARSER !! (it, rc) = Some sub /\
    assemble sub out = Ok c /\
    assemble sub (fields_of out) = Ok c /\
    out !! "canonical_resource_name" = Some (VStr c).
Proof.
  intros Hp.
  destruct (parse_resource_name_Ok _ _ Hp)
    as (it & const & rc & first & fields & out' & Hparses & -> & Hrec).
  destruct Hparses as [rest parts _ _ Hit _ _].
  destruct Hrec as (Hc & Hrc & Hconst & sub & Hsub & Hasm).
  exists it, const, rc, sub. eexists.
  split_and!; [exact Hit | | | exact Hsub | apply Hasm | apply Hasm |];
    by rewrite lookup_insert_ne.
Qed.

(** C2: ["TCPIP::192.168.0.1::INSTR"] parses to a record with the board
    ["0"], the host address ["192.168.0.1"], the LAN device name
    ["inst0"] and the canonical name
    ["TCPIP0::192.168.0.1::inst0::INSTR"]. *)
Theorem parse_tcpip_instr_example :
  exists out,
    parse_resource_name "TCPIP::192.168.0.1::INSTR" = Ok out /\
    out !! "board" = Some (VStr "0") /\
    out !! "host_address" = Some (VStr "192.168.0.1") /\
    out !! "lan_device_name" = Some (VStr "inst0") /\
    out !! "canonical_resource_name" =
      Some (VStr "TCPIP0::192.168.0.1::inst0::INSTR").
Proof.
  returns (parse_resource_name "TCPIP::192.168.0.1::INSTR").
  exists out. split_and!; [reflexivity | lookup_in E ..].
Qed.

(** C3: [_GPIBInstr.parse] returns [None], so that parsing ["GPIB::14"]
    raises [AttributeError] where [call_subparser] updates the result; and
    the template that [_GPIBInstr] assembles with is the empty one of the
    base class. *)
Theorem parse_gpib_instr_example :
  parse _GPIBInstr "" ["14"] = Ok None /\
  parse_resource_name "GPIB::14" =
    Raise (AttributeError "'NoneType' object has no attribute 'update'") /\
  assemble _GPIBInstr
    (<["board" := VStr "0"]> (<["primary_address" := VStr "14"]> ∅)) = Ok "".
Proof. split_and!; reflexivity. Qed.

(** C4: when the first token starts with the name of no interface type,
    [parse_resource_name] raises the [ValueError] of [call_subparser],
    which no [except] clause turns into an [InvalidResourceName]. *)
Theorem unknown_interface_type_raises_ValueError (s first : string)
    (rest : list string) :
  split (strip s) = first :: rest ->
  Forall (fun item => startswith (upper first) item.1 = false)
    _INTERFACE_TYPES ->
  parse_resource_name s =
    Raise (ValueError ("Unknown interface type " +:+ first)).
Proof.
  intros Hs Hnone.
  destruct (split_resource_class rest) as [parts rc] eqn:Hc.
  rewrite (parse_resource_name_tokens _ _ _ _ _ Hs Hc).
  destruct (call_subparser_cases first rc parts)
    as [(it & const & Hit & Hstart & _) | [_ ->]]; [| reflexivity].
  rewrite Forall_forall in Hnone. specialize (Hnone _ Hit).
  simpl in Hnone. congruence.
Qed.

(** C5: [_ASRLInstr] has no [parse] of its own, so that parsing
    ["ASRL::INSTR"] raises the [NotImplementedError] of the base class;
    the method [_asrl_instr] that checks the board is not called, and
    would raise a plain [ValueError]. *)
Theorem parse_asrl_instr_example :
  parse_resource_name "ASRL::INSTR" = Raise NotImplementedError /\
  _asrl_instr "" [] = Raise (ValueError "ASRL INSTR requires a board.").
Proof. split; reflexivity. Qed.

(** C6: [_GPIBInstr.parse] does not check the number of parts, so that
    parsing ["GPIB0::14::5::6::INSTR"] raises [AttributeError] as for
    any other GPIB instrument. *)
Theorem parse_gpib_instr_arity_example :
  parse _GPIBInstr "0" ["14"; "5"; "6"] = Ok None /\
  parse_resource_name "GPIB0::14::5::6::INSTR" =
    Raise (AttributeError "'NoneType' object has no attribute 'update'").
Proof. split; reflexivity. Qed.

(** C7: when the first token starts with the name of an interface type
    and no subparser is registered for that name and the resource class,
    [parse_resource_name] raises [InvalidResourceName] with a message that
    holds the resource name. *)
Theorem unregistered_pair_raises_InvalidResourceName (s first : string)
    (rest parts : list string) (rc it : string) (const : InterfaceType) :
  split (strip s) = first :: rest ->
  split_resource_class rest = (parts, rc) ->
  (it, const) ∈ _INTERFACE_TYPES ->
  startswith (upper first) it = true ->
  _SUBPARSER !! (it, rc) = None ->
  exists msg,
    parse_resource_name s = Raise (InvalidResourceName msg) /\
    msg = "Invalid resource name: " +:+ s +:+
          String "010" "Could find subparser for " +:+ first +:+ " and " +:+ rc /\
    contains msg s.
Proof.
  intros Hs Hc Hit Hstart Hreg. eexists. split_and!; [| reflexivity |].
  - rewrite (parse_resource_name_tokens _ _ _ _ _ Hs Hc).
    rewrite (call_subparser_run it const) by done.
    unfold run_subparser. cbv zeta. by rewrite Hreg.
  - by eexists _, _.
Qed.

(** C8, amended: when [to_canonical_name] returns for a name whose last
    token does not end with a colon, what it returns is a string made of
    the upper-case name of an interface type, a board, fields and the
    name of a resource class, separated by ["::"], and [to_canonical_name]
    returns that string for that string. *)
Theorem to_canonical_name_idempotent (s : string) (v : value) :
  to_canonical_name s = Ok v ->
  ends_with_colon (List.last (split (strip s)) "") = false ->
  exists it const board fields rc,
    (it, const) ∈ _INTERFACE_TYPES /\ upper it = it /\
    rc ∈ _RESOURCE_CLASSES /\
    v = VStr (canonical_of it board fields rc) /\
    to_canonical_name (canonical_of it board fields rc) = Ok v.
Proof.
  unfold to_canonical_name at 1. intros Hcan Hlast.
  destruct (parse_resource_name s) as [out|e] eqn:Hp; [| discriminate].
  cbn [mbind result_bind] in Hcan.
  destruct (parse_resource_name_Ok _ _ Hp)
    as (it & const & rc & first & fields & out' & Hparses & -> & Hrec).
  destruct Hrec as (Hc & _).
  unfold getitem in Hcan. rewrite lookup_insert_ne, Hc in Hcan by done.
  injection Hcan as <-.
  pose proof (split_tokenlike _ Hlast) as Htok.
  destruct (canonical_parses _ _ _ _ _ _ Hparses Htok) as [Hparses' Hboard].
  destruct Hparses as [rest parts _ _ Hit _ Hacc].
  destruct (accepts_plain_names _ _ _ _ Hacc)
    as (_ & Hup & _ & _ & _ & _ & _ & _ & Hrc).
  exists it, const, (board_of it first), fields, rc.
  split_and!; [done | done | by apply bool_decide_eq_true in Hrc | done |].
  destruct (parse_resource_name_parses _ _ _ _ _ _ Hparses')
    as (out2 & Hp2 & Hc2 & _).
  unfold to_canonical_name. rewrite Hp2. cbn [mbind result_bind].
  unfold getitem. rewrite lookup_insert_ne, Hc2 by done.
  by rewrite Hboard.
Qed.

(** C9: the tokens after the first one give the resource class and the
    parts: when the last of them is the name of a resource class, it is
    the resource class and the tokens before it are the parts; otherwise
    the resource class is ["INSTR"] and all of them are the parts.
    [call_subparser] is called with that class and these parts, and a
    record that [parse_resource_name] returns holds that class. *)
Theorem resource_class_from_last_token (s first : string) (rest : list string) :
  split (strip s) = first :: rest ->
  exists parts rc,
    split_resource_class rest = (parts, rc) /\
    (rest <> [] -> List.last rest "" ∈ _RESOURCE_CLASSES ->
     rc = List.last rest "" /\ parts = removelast rest) /\
    (rest = [] \/ List.last rest "" ∉ _RESOURCE_CLASSES ->
     rc = "INSTR" /\ parts = rest) /\
    parse_resource_name s =
      try_except s first rc (call_subparser first rc parts) /\
    forall out, parse_resource_name s = Ok out ->
      out !! "resource_class" = Some (VStr rc).
Proof.
  intros Hs. destruct (split_resource_class rest) as [parts rc] eqn:Hc.
  exists parts, rc. split_and!; [reflexivity | | | |].
  - intros Hne Hin. unfold split_resource_class, is_resource_class in Hc.
    destruct rest as [|t rest]; [done |].
    rewrite bool_decide_eq_true_2 in Hc by done. by injection Hc as <- <-.
  - intros Hno. unfold split_resource_class, is_resource_class in Hc.
    destruct rest as [|t rest]; [by injection Hc as <- <- |].
    destruct Hno as [? | Hno]; [done |].
    rewrite bool_decide_eq_false_2 in Hc by done. by injection Hc as <- <-.
  - by apply (parse_resource_name_tokens _ _ rest).
  - intros out Hp.
    destruct (parse_resource_name_Ok _ _ Hp)
      as (it & const & rc' & first' & fields & out' & Hparses & -> & Hrec).
    destruct Hparses as [rest' parts' Hs' Hc' _ _ _].
    rewrite Hs in Hs'. injection Hs' as <- <-.
    rewrite Hc in Hc'. injection Hc' as <- <-.
    destruct Hrec as (_ & Hrc & _). by rewrite lookup_insert_ne.
Qed.

(** C10: [lstrip] drops a set of characters, not a prefix: the first part
    of ["GPIB0"] is ["0"], but nothing is dropped from ["gpib0"], and the
    ["L"] of ["ASRLLPT1"] goes with the name; the lower-case
    ["tcpip0::192.168.0.1"] parses to the board ["tcpip0"]. *)
Theorem first_part_examples :
  lstrip "GPIB0" "GPIB" = "0" /\
  lstrip "gpib0" "GPIB" = "gpib0" /\
  lstrip "ASRLLPT1" "ASRL" = "PT1" /\
  exists out,
    parse_resource_name "tcpip0::192.168.0.1" = Ok out /\
    out !! "board" = Some (VStr "tcpip0") /\
    out !! "canonical_resource_name" =
      Some (VStr "TCPIPtcpip0::192.168.0.1::inst0::INSTR").
Proof.
  split_and!; [reflexivity .. |].
  returns (parse_resource_name "tcpip0::192.168.0.1").
  exists out. split_and!; [reflexivity | lookup_in E ..].
Qed.

(** ** Further properties *)

(** X1: every record that [parse_resource_name] returns is a TCPIP or a
    USB record: no other subparser returns a dictionary. *)
Theorem parsed_interface_type_tcpip_or_usb (s : string) (out : dict) :
  parse_resource_name s = Ok out ->
  out !! "interface_type" = Some (VEnum tcpip) \/
  out !! "interface_type" = Some (VEnum usb).
Proof.
  intros Hp.
  destruct (parse_resource_name_Ok _ _ Hp)
    as (it & const & rc & first & fields & out' & Hparses & -> & Hrec).
  destruct Hrec as (_ & _ & Hconst & _).
  rewrite lookup_insert_ne, Hconst by done.
  destruct Hparses as [rest parts _ _ Hit _ Hacc].
  unfold _INTERFACE_TYPES in Hit. rewrite !elem_of_cons, elem_of_nil in Hit.
  destruct Hacc; destruct Hit as [H|[H|[H|[H|[H|[H|[]]]]]]];
    try discriminate H; injection H as <-; auto.
Qed.

(** Example: ["USB0::0x1234::0x0001::SN001::RAW"] parses to a record of the
    resource class ["RAW"] with the manufacturer, the model, the serial
    number, and the interface number ["0"] by default. *)
Theorem parse_usb_raw_example :
  exists out,
    parse_resource_name "USB0::0x1234::0x0001::SN001::RAW" = Ok out /\
    out !! "manufacturer_id" = Some (VStr "0x1234") /\
    out !! "model_code" = Some (VStr "0x0001") /\
    out !! "serial_number" = Some (VStr "SN001") /\
    out !! "usb_interface_number" = Some (VStr "0") /\
    out !! "resource_class" = Some (VStr "RAW").
Proof.
  returns (parse_resource_name "USB0::0x1234::0x0001::SN001::RAW").
  exists out. split_and!; [reflexivity | lookup_in E ..].
Qed.

(** X3: the three classes that misspell [canonical_resource_name]
    assemble the empty string from any parts. *)
Theorem assemble_misspelled_template (parts : dict) :
  assemble _GPIBInstr parts = Ok "" /\
  assemble _GPIBIntfc parts = Ok "" /\
  assemble _PXIInstr parts = Ok "".
Proof. split_and!; reflexivity. Qed.

(** X5: when the first part is the name of an interface type followed by
    a board whose first character does not occur in the name, [lstrip]
    leaves exactly the board; and it leaves nothing of the name alone. *)
Theorem first_part_of_prefixed (it : string) (c : ascii) (board : string) :
  char_in c it = false ->
  lstrip (it +:+ String c board) it = String c board /\ lstrip it it = "".
Proof.
  intros Hc.
  assert (forall pre x post, char_in x (pre +:+ String x post) = true) as Hin.
  { induction pre as [|y pre IH]; intros x post.
    - rewrite append_empty_l. cbn [char_in]. by rewrite Ascii.eqb_refl.
    - rewrite append_cons. cbn [char_in]. by rewrite IH, orb_true_r. }
  assert (forall post pre, it = pre +:+ post ->
            forallb (fun x => char_in x it) (list_ascii_of_string post) = true)
    as Hself.
  { induction post as [|x post IH]; intros pre Hit; [reflexivity |].
    cbn [list_ascii_of_string forallb]. rewrite andb_true_iff. split.
    - rewrite Hit. apply Hin.
    - apply (IH (pre +:+ String x "")).
      by rewrite append_assoc, append_cons, append_empty_l. }
  specialize (Hself it "" eq_refl).
  assert (forall a : string, a +:+ "" = a) as Hempty.
  { induction a as [|x a IH]; [reflexivity | by rewrite append_cons, IH]. }
  split.
  - rewrite (lstrip_prefix _ _ _ Hself). cbn [lstrip]. by rewrite Hc.
  - pose proof (lstrip_prefix it "" it Hself) as H. by rewrite Hempty in H.
Qed.

(** X4: the name of at most one interface type starts a given first part,
    so that the order in which [call_subparser] goes through
    [_INTERFACE_TYPES] does not matter. *)
Theorem interface_type_unique (first it1 it2 : string) (c1 c2 : InterfaceType) :
  (it1, c1) ∈ _INTERFACE_TYPES -> (it2, c2) ∈ _INTERFACE_TYPES ->
  startswith (upper first) it1 = true -> startswith (upper first) it2 = true ->
  it1 = it2 /\ c1 = c2.
Proof.
  unfold _INTERFACE_TYPES. rewrite !elem_of_cons, !elem_of_nil.
  intros [H1|[H1|[H1|[H1|[H1|[H1|[]]]]]]] [H2|[H2|[H2|[H2|[H2|[H2|[]]]]]]] Hs1 Hs2;
    injection H1 as -> ->; injection H2 as -> ->; try done;
    destruct (startswith_head _ _ _ Hs1) as [u Hu]; rewrite Hu in Hs2;
    discriminate Hs2.
Qed.

(** ** The outcomes of the subparsers *)

Lemma takes_parts_cases (it rc : string) :
  takes_parts it rc ->
  (it = "TCPIP" /\ rc = "INSTR") \/ (it = "TCPIP" /\ rc = "SOCKET") \/
  (it = "USB" /\ rc = "INSTR") \/ (it = "USB" /\ rc = "RAW").
Proof.
  unfold takes_parts. rewrite !elem_of_cons, elem_of_nil.
  intros [H|[H|[H|[H|[]]]]]; injection H as -> ->; tauto.
Qed.

(** A subparser that takes parts accepts them when their number is
    right. *)
Lemma arity_ok_accepts (it rc : string) (parts : list string) :
  takes_parts it rc -> arity_ok it parts = true ->
  accepts it rc parts (fill_defaults it parts).
Proof.
  intros H Har.
  destruct (takes_parts_cases _ _ H) as [[-> ->]|[[-> ->]|[[-> ->]|[-> ->]]]];
    destruct parts as [|p1 [|p2 [|p3 [|p4 [|p5 parts]]]]];
    try discriminate Har; constructor.
Qed.

(** And raises [InvalidResourceName] with its syntax otherwise. *)
Lemma run_subparser_arity (it : string) (const : InterfaceType)
    (first rc : string) (parts : list string) :
  takes_parts it rc -> arity_ok it parts = false ->
  run_subparser it const first rc parts =
  Raise (InvalidResourceName (syntax_of it rc)).
Proof.
  intros H Har.
  destruct (takes_parts_cases _ _ H) as [[-> ->]|[[-> ->]|[[-> ->]|[-> ->]]]];
    eval_run_subparser;
    destruct (String.eqb (lstrip first _) "");
    destruct parts as [|p1 [|p2 [|p3 [|p4 [|p5 parts]]]]];
    try discriminate Har; reflexivity.
Qed.

Lemma run_subparser_docstring_only (it : string) (const : InterfaceType)
    (first rc : string) (parts : list string) :
  (it, rc) ∈ [("GPIB", "INSTR"); ("GPIB", "INTFC"); ("PXI", "INSTR")] ->
  run_subparser it const first rc parts =
  Raise (AttributeError "'NoneType' object has no attribute 'update'").
Proof.
  rewrite !elem_of_cons, elem_of_nil.
  intros [H|[H|[H|[]]]]; injection H as -> ->; reflexivity.
Qed.

Lemma run_subparser_asrl (const : InterfaceType) (first : string)
    (parts : list string) :
  run_subparser "ASRL" const first "INSTR" parts = Raise NotImplementedError.
Proof. reflexivity. Qed.

Lemma run_subparser_unregistered (it : string) (const : InterfaceType)
    (first rc : string) (parts : list string) :
  _SUBPARSER !! (it, rc) = None ->
  run_subparser it const first rc parts = Raise KeyError.
Proof. intros H. unfold run_subparser. cbv zeta. by rewrite H. Qed.

(** The registry binds eight pairs. *)
Lemma registry_cases (it rc : string) :
  _SUBPARSER !! (it, rc) = None \/ takes_parts it rc \/
  (it, rc) ∈ [("GPIB", "INSTR"); ("GPIB", "INTFC"); ("PXI", "INSTR")] \/
  (it = "ASRL" /\ rc = "INSTR").
Proof.
  destruct (_SUBPARSER !! (it, rc)) as [sub|] eqn:Hreg; [| by left].
  right. apply registry_inv in Hreg. unfold takes_parts.
  rewrite !elem_of_cons, elem_of_nil in Hreg. rewrite !elem_of_cons, elem_of_nil.
  destruct Hreg as [H|[H|[H|[H|[H|[H|[H|[H|[]]]]]]]]];
    injection H as Hit Hrc _; subst it rc; tauto.
Qed.

(** The fields of the record that an accepting subparser returns: the
    board and, under the keywords of the subparser, the fields, whatever
    [resource_name] is stored beside them. *)
Lemma run_subparser_fields (it : string) (const : InterfaceType)
    (first rc : string) (parts fields : list string) :
  accepts it rc parts fields ->
  exists out,
    run_subparser it const first rc parts = Ok out /\
    forall name,
      <["resource_name" := VStr name]> out !! "board" =
        Some (VStr (board_of it first)) /\
      Forall2 (fun k f => <["resource_name" := VStr name]> out !! k =
                          Some (VStr f))
        (field_names it rc) fields.
Proof.
  unfold board_of. cbv zeta.
  destruct 1;
    match goal with
    | |- context [String.eqb (lstrip ?s ?chars) ""] =>
        destruct (String.eqb (lstrip s chars) "") eqn:E
    end;
    eexists; (split; [eval_run_subparser; rewrite E; reflexivity |]);
    intros name; (split; [reflexivity |]); repeat constructor.
Qed.

(** ** Properties of the outcomes *)

(** X6: [parse_resource_name] returns a record, or raises the
    [ValueError] of an unknown interface type, an [InvalidResourceName]
    whose message holds the resource name, [NotImplementedError] or
    [AttributeError]; no [KeyError], [IndexError] or [TypeError] leaves
    it. *)
Theorem parse_resource_name_outcomes (s : string) :
  (exists out, parse_resource_name s = Ok out) \/
  (exists first,
      parse_resource_name s =
      Raise (ValueError ("Unknown interface type " +:+ first))) \/
  (exists msg,
      parse_resource_name s = Raise (InvalidResourceName msg) /\
      contains msg s) \/
  parse_resource_name s = Raise NotImplementedError \/
  parse_resource_name s =
    Raise (AttributeError "'NoneType' object has no attribute 'update'").
Proof.
  pose proof (split_nonempty (strip s)) as Hne.
  destruct (split (strip s)) as [|first rest] eqn:Hs; [done |].
  destruct (split_resource_class rest) as [parts rc] eqn:Hc.
  rewrite (parse_resource_name_tokens _ _ _ _ _ Hs Hc).
  destruct (call_subparser_cases first rc parts)
    as [(it & const & Hit & Hstart & ->) | [_ ->]];
    [| right; left; by exists first].
  destruct (registry_cases it rc) as [Hreg | [Htakes | [Hdoc | [-> ->]]]].
  - rewrite run_subparser_unregistered by done.
    right; right; left. eexists. split; [reflexivity | by eexists _, _].
  - destruct (arity_ok it parts) eqn:Har.
    + destruct (run_subparser_accepts it const first rc parts _
                  (arity_ok_accepts _ _ _ Htakes Har)) as (out & -> & _).
      left. by eexists.
    + rewrite run_subparser_arity by done.
      right; right; left. eexists. split; [reflexivity | by eexists _, _].
  - rewrite run_subparser_docstring_only by done. tauto.
  - rewrite run_subparser_asrl. tauto.
Qed.

(** X7: when the first token starts with TCPIP or USB, the pair is
    registered and the number of parts is wrong, [parse_resource_name]
    raises [InvalidResourceName] with the resource name and the syntax of
    the subparser; for USB/RAW the syntax is the one of USB/INSTR. *)
Theorem wrong_number_of_parts (s first : string) (rest parts : list string)
    (rc it : string) (const : InterfaceType) :
  split (strip s) = first :: rest ->
  split_resource_class rest = (parts, rc) ->
  (it, const) ∈ _INTERFACE_TYPES ->
  startswith (upper first) it = true ->
  takes_parts it rc ->
  arity_ok it parts = false ->
  parse_resource_name s =
    Raise (InvalidResourceName
             ("Invalid resource name: " +:+ s +:+
              String "010" "The syntax is " +:+ syntax_of it rc)).
Proof.
  intros Hs Hc Hit Hstart Htakes Har.
  rewrite (parse_resource_name_tokens _ _ _ _ _ Hs Hc).
  rewrite (call_subparser_run it const) by done.
  by rewrite run_subparser_arity.
Qed.

(** X2: when the first token starts with TCPIP or USB, the pair is
    registered and the number of parts is right, [parse_resource_name]
    returns a record that maps [board] to the board, the keywords of the
    subparser to the parts as they are, with the default for a last field
    left out, [resource_name] to the name as it was given, and
    [canonical_resource_name] to these joined by ["::"]. *)
Theorem right_number_of_parts (s first : string) (rest parts : list string)
    (rc it : string) (const : InterfaceType) :
  split (strip s) = first :: rest ->
  split_resource_class rest = (parts, rc) ->
  (it, const) ∈ _INTERFACE_TYPES ->
  startswith (upper first) it = true ->
  takes_parts it rc ->
  arity_ok it parts = true ->
  exists out,
    parse_resource_name s = Ok out /\
    out !! "board" = Some (VStr (board_of it first)) /\
    Forall2 (fun k f => out !! k = Some (VStr f))
      (field_names it rc) (fill_defaults it parts) /\
    out !! "resource_name" = Some (VStr s) /\
    out !! "canonical_resource_name" =
      Some (VStr (canonical_of it (board_of it first)
                    (fill_defaults it parts) rc)).
Proof.
  intros Hs Hc Hit Hstart Htakes Har.
  pose proof (arity_ok_accepts _ _ _ Htakes Har) as Hacc.
  destruct (run_subparser_fields it const first rc parts _ Hacc)
    as (out & Hrun & Hfields).
  destruct (run_subparser_accepts it const first rc parts _ Hacc)
    as (out' & Hrun' & Hcan & _).
  rewrite Hrun in Hrun'. injection Hrun' as <-.
  exists (<["resource_name" := VStr s]> out).
  rewrite (parse_resource_name_tokens _ _ _ _ _ Hs Hc).
  rewrite (call_subparser_run it const), Hrun by done.
  destruct (Hfields s) as [Hboard Hf].
  split_and!; [reflexivity | exact Hboard | exact Hf |
               by rewrite lookup_insert_eq | by rewrite lookup_insert_ne].
Qed.

(** X9: every name whose first token starts with GPIB or PXI and whose
    resource class is registered for it makes [parse_resource_name] raise
    [AttributeError], whatever its parts: the three subparsers return
    [None]. *)
Theorem gpib_and_pxi_names_raise_AttributeError (s first : string)
    (rest parts : list string) (rc it : string) (const : InterfaceType) :
  split (strip s) = first :: rest ->
  split_resource_class rest = (parts, rc) ->
  (it, const) ∈ _INTERFACE_TYPES ->
  startswith (upper first) it = true ->
  (it, rc) ∈ [("GPIB", "INSTR"); ("GPIB", "INTFC"); ("PXI", "INSTR")] ->
  parse_resource_name s =
    Raise (AttributeError "'NoneType' object has no attribute 'update'").
Proof.
  intros Hs Hc Hit Hstart Hdoc.
  rewrite (parse_resource_name_tokens _ _ _ _ _ Hs Hc).
  rewrite (call_subparser_run it const) by done.
  by rewrite run_subparser_docstring_only.
Qed.

(** X10: every name whose first token starts with ASRL and whose resource
    class is INSTR makes [parse_resource_name] raise
    [NotImplementedError], with or without a board. *)
Theorem asrl_names_raise_NotImplementedError (s first : string)
    (rest parts : list string) :
  split (strip s) = first :: rest ->
  split_resource_class rest = (parts, "INSTR") ->
  startswith (upper first) "ASRL" = true ->
  parse_resource_name s = Raise NotImplementedError.
Proof.
  intros Hs Hc Hstart.
  rewrite (parse_resource_name_tokens _ _ _ _ _ Hs Hc).
  rewrite (call_subparser_run "ASRL" asrl)
    by (done || (unfold _INTERFACE_TYPES; rewrite !elem_of_cons; tauto)).
  by rewrite run_subparser_asrl.
Qed.

(** X11: VXI is an interface type with no subparser: every name whose
    first token starts with VXI makes [parse_resource_name] raise
    [InvalidResourceName], whatever its resource class and parts. *)
Theorem vxi_names_raise_InvalidResourceName (s first : string)
    (rest parts : list string) (rc : string) :
  split (strip s) = first :: rest ->
  split_resource_class rest = (parts, rc) ->
  startswith (upper first) "VXI" = true ->
  parse_resource_name s =
    Raise (InvalidResourceName
             ("Invalid resource name: " +:+ s +:+
              String "010" "Could find subparser for " +:+
              first +:+ " and " +:+ rc)).
Proof.
  intros Hs Hc Hstart.
  rewrite (parse_resource_name_tokens _ _ _ _ _ Hs Hc).
  rewrite (call_subparser_run "VXI" vxi)
    by (done || (unfold _INTERFACE_TYPES; rewrite !elem_of_cons; tauto)).
  rewrite run_subparser_unregistered; [reflexivity |].
  destruct (registry_cases "VXI" rc) as [H | [H | [H | [H _]]]];
    [exact H | | | discriminate H].
  - apply takes_parts_cases in H.
    destruct H as [[H _]|[[H _]|[[H _]|[H _]]]]; discriminate H.
  - rewrite !elem_of_cons, elem_of_nil in H.
    destruct H as [H|[H|[H|[]]]]; discriminate H.
Qed.

(** The pairs that the registry binds once the module is loaded are
    the eight pairs of the decorators, each bound to an instance of its
    class. *)
Lemma registered_pairs (it rc : string) (sub : subparser) :
  _SUBPARSER !! (it, rc) = Some sub <->
  (it, rc, sub) ∈
    [("GPIB", "INSTR", _GPIBInstr); ("GPIB", "INTFC", _GPIBIntfc);
     ("ASRL", "INSTR", _ASRLInstr); ("TCPIP", "INSTR", _TCPIPInstr);
     ("TCPIP", "SOCKET", _TCPIPSocket); ("USB", "INSTR", _USBInstr);
     ("USB", "RAW", _USBRaw); ("PXI", "INSTR", _PXIInstr)].
Proof.
  split; [apply registry_inv |].
  rewrite !elem_of_cons, elem_of_nil.
  intros [H|[H|[H|[H|[H|[H|[H|[H|[]]]]]]]]]; injection H as -> -> ->;
    reflexivity.
Qed.

(** X13: in every record that [parse_resource_name] returns, the board is
    a string that is not empty and does not start with a character of the
    name of the interface type, and [resource_name] is the name as it was
    given, not trimmed. *)
Theorem parsed_record_invariant (s : string) (out : dict) :
  parse_resource_name s = Ok out ->
  exists it const board,
    (it, const) ∈ _INTERFACE_TYPES /\
    out !! "interface_type" = Some (VEnum const) /\
    out !! "board" = Some (VStr board) /\
    board <> "" /\ lstrip board it = board /\
    out !! "resource_name" = Some (VStr s).
Proof.
  intros Hp.
  destruct (parse_resource_name_Ok _ _ Hp)
    as (it & const & rc & first & fields & out' & Hparses & -> & Hrec).
  destruct Hparses as [rest parts Hs Hc Hit Hstart Hacc].
  destruct Hrec as (_ & _ & Hconst & _).
  destruct (run_subparser_fields it const first rc parts _ Hacc)
    as (out2 & Hrun2 & Hfields).
  rewrite (parse_resource_name_tokens _ _ _ _ _ Hs Hc) in Hp.
  rewrite (call_subparser_run it const), Hrun2 in Hp by done.
  injection Hp as Hp. 
  destruct (Hfields s) as [Hboard _]. rewrite Hp in Hboard.
  destruct (accepts_plain_names _ _ _ _ Hacc)
    as (_ & _ & _ & H0 & _).
  destruct (lstrip_board_of it first H0) as [Hl Hne].
  exists it, const, (board_of it first).
  split_and!; [done | by rewrite lookup_insert_ne | done | done | done |
               by rewrite lookup_insert_eq].
Qed.

(** ** White space and the optional INSTR *)

Lemma lstrip_space_head (s : string) :
  lstrip_space s = "" \/
  exists c r, lstrip_space s = String c r /\ isspace c = false.
Proof.
  induction s as [|c s IH]; [by left |]. cbn [lstrip_space].
  destruct (isspace c) eqn:Hc; [exact IH | right; by eexists _, _].
Qed.

Lemma rstrip_space_idempotent (s : string) :
  rstrip_space (rstrip_space s) = rstrip_space s.
Proof.
  induction s as [|c s IH]; [reflexivity |]. cbn [rstrip_space].
  destruct (rstrip_space s) as [|d r] eqn:Hr.
  - destruct (isspace c) eqn:Hc; [reflexivity |].
    cbn [rstrip_space]. by rewrite Hc.
  - cbn [rstrip_space] in *. by rewrite IH.
Qed.

Lemma rstrip_space_keeps_head (c : ascii) (s : string) :
  isspace c = false -> exists r, rstrip_space (String c s) = String c r.
Proof.
  intros Hc. cbn [rstrip_space].
  destruct (rstrip_space s); [rewrite Hc |]; by eexists.
Qed.

Lemma strip_idempotent (s : string) : strip (strip s) = strip s.
Proof.
  unfold strip.
  destruct (lstrip_space_head s) as [-> | (c & r & -> & Hc)]; [reflexivity |].
  destruct (rstrip_space_keeps_head c r Hc) as [r' Hr'].
  rewrite Hr', (lstrip_space_keeps _ _ Hc), <- Hr'.
  apply rstrip_space_idempotent.
Qed.

(** Two names with the same tokens have the same canonical name. *)
Lemma to_canonical_name_tokens (s s' : string) (v : value) :
  split (strip s) = split (strip s') ->
  to_canonical_name s = Ok v -> to_canonical_name s' = Ok v.
Proof.
  unfold to_canonical_name, parse_resource_name. intros <-.
  destruct (split (strip s)) as [|first rest]; [done |].
  destruct (split_resource_class rest) as [parts rc].
  destruct (call_subparser first rc parts) as [out|e]; [| by destruct e].
  cbn [try_except mbind result_bind]. unfold getitem.
  by rewrite !lookup_insert_ne.
Qed.

(** X14: white space around a resource name does not change its
    canonical name: [to_canonical_name] returns the same for a name and
    for the name trimmed. *)
Theorem to_canonical_name_strip (s : string) (v : value) :
  to_canonical_name s = Ok v <-> to_canonical_name (strip s) = Ok v.
Proof.
  split; apply to_canonical_name_tokens; by rewrite strip_idempotent.
Qed.

(** X15: the resource class INSTR may be left out: when the last token of
    a name is not the name of a resource class, or the name has one
    token, the name with the further token INSTR has the same canonical
    name. *)
Theorem instr_is_optional (s s' first : string) (rest : list string)
    (v : value) :
  split (strip s) = first :: rest ->
  split (strip s') = first :: rest ++ ["INSTR"] ->
  rest = [] \/ List.last rest "" ∉ _RESOURCE_CLASSES ->
  to_canonical_name s' = Ok v <-> to_canonical_name s = Ok v.
Proof.
  intros Hs Hs' Hlast.
  assert (split_resource_class rest = (rest, "INSTR")) as Hc.
  { unfold split_resource_class, is_resource_class.
    destruct rest as [|t rest]; [reflexivity |].
    destruct Hlast as [? | Hlast]; [done |].
    by rewrite bool_decide_eq_false_2. }
  assert (split_resource_class (rest ++ ["INSTR"]) = (rest, "INSTR")) as Hc'
    by (by apply split_resource_class_snoc).
  unfold to_canonical_name.
  rewrite (parse_resource_name_tokens _ _ _ _ _ Hs Hc).
  rewrite (parse_resource_name_tokens _ _ _ _ _ Hs' Hc').
  destruct (call_subparser first "INSTR" rest) as [out|e];
    [| by destruct e].
  cbn [try_except mbind result_bind]. unfold getitem.
  by rewrite !lookup_insert_ne.
Qed.

(** ** Assembling *)

(** The entry of the parts over the defaults: the part if there is one,
    the default otherwise. *)
Lemma lookup_parts_defaults (parts defaults : dict) (k : string) :
  (parts ∪ defaults) !! k =
  match parts !! k with
  | Some v => Some v
  | None => defaults !! k
  end.
Proof.
  rewrite lookup_union. destruct (parts !! k), (defaults !! k); reflexivity.
Qed.

Lemma format_tcpip_instr (d : dict) :
  format "TCPIP%(board)s::%(host_address)s::%(lan_device_name)s::INSTR" d =
  b ← getitem d "board"; h ← getitem d "host_address";
  l ← getitem d "lan_device_name";
  Ok ("TCPIP" +:+ py_str b +:+ "::" +:+ py_str h +:+ "::" +:+ py_str l +:+
      "::INSTR").
Proof.
  unfold format. cbn.
  destruct (getitem d "board"); [| reflexivity].
  destruct (getitem d "host_address"); [| reflexivity].
  destruct (getitem d "lan_device_name"); reflexivity.
Qed.

Lemma format_usb (d : dict) (rc : string) :
  format ("USB%(board)s::%(manufacturer_id)s::%(model_code)s::%(serial_number)s::%(usb_interface_number)s::" +:+ rc) d =
  b ← getitem d "board"; m ← getitem d "manufacturer_id";
  c ← getitem d "model_code"; n ← getitem d "serial_number";
  u ← getitem d "usb_interface_number";
  r ← format rc d;
  Ok ("USB" +:+ py_str b +:+ "::" +:+ py_str m +:+ "::" +:+ py_str c +:+
      "::" +:+ py_str n +:+ "::" +:+ py_str u +:+ "::" +:+ r).
Proof.
  unfold format. rewrite !append_cons, append_empty_l. cbn.
  destruct (getitem d "board"); [| reflexivity].
  destruct (getitem d "manufacturer_id"); [| reflexivity].
  destruct (getitem d "model_code"); [| reflexivity].
  destruct (getitem d "serial_number"); [| reflexivity].
  destruct (getitem d "usb_interface_number"); [| reflexivity].
  destruct (format_from FLit rc d); reflexivity.
Qed.

(** X16: [_TCPIPInstr] assembles a name from the host address of the
    parts, with the board and the LAN device name of the parts when they
    are there and ["0"] and ["inst0"] otherwise; without a host address it
    raises [KeyError]. *)
Theorem assemble_tcpip_instr (parts : dict) :
  assemble _TCPIPInstr parts =
  match parts !! "host_address" with
  | Some h =>
      Ok ("TCPIP" +:+ py_str (default (VStr "0") (parts !! "board")) +:+
          "::" +:+ py_str h +:+ "::" +:+
          py_str (default (VStr "inst0") (parts !! "lan_device_name")) +:+
          "::INSTR")
  | None => Raise KeyError
  end.
Proof.
  unfold assemble, _TCPIPInstr. cbn [canonical_resource_name defaults].
  rewrite format_tcpip_instr. unfold getitem.
  rewrite !lookup_parts_defaults.
  destruct (parts !! "board"), (parts !! "host_address"),
    (parts !! "lan_device_name"); reflexivity.
Qed.

(** X17: from parts with the manufacturer, the model and the serial
    number, [_USBInstr] assembles a name with the board and the interface
    number of the parts, or ["0"] for each that is missing; [_USBRaw] does
    so for the interface number, but raises [KeyError] when the board is
    missing: its defaults spell the key [borad]. *)
Theorem assemble_usb (parts : dict) (m c n : value) :
  parts !! "manufacturer_id" = Some m ->
  parts !! "model_code" = Some c ->
  parts !! "serial_number" = Some n ->
  let fields :=
    "::" +:+ py_str m +:+ "::" +:+ py_str c +:+ "::" +:+ py_str n +:+ "::" +:+
    py_str (default (VStr "0") (parts !! "usb_interface_number")) +:+ "::" in
  assemble _USBInstr parts =
    Ok ("USB" +:+ py_str (default (VStr "0") (parts !! "board")) +:+
        fields +:+ "INSTR") /\
  assemble _USBRaw parts =
    match parts !! "board" with
    | Some b => Ok ("USB" +:+ py_str b +:+ fields +:+ "RAW")
    | None => Raise KeyError
    end.
Proof.
  intros Hm Hc Hn fields. subst fields.
  unfold assemble, _USBInstr, _USBRaw. cbn [canonical_resource_name defaults].
  split.
  - rewrite (format_usb _ "INSTR"). unfold getitem.
    rewrite !lookup_parts_defaults, Hm, Hc, Hn.
    destruct (parts !! "board"), (parts !! "usb_interface_number");
      cbn [mbind result_bind default]; by rewrite !append_assoc.
  - rewrite (format_usb _ "RAW"). unfold getitem.
    rewrite !lookup_parts_defaults, Hm, Hc, Hn.
    destruct (parts !! "board"), (parts !! "usb_interface_number");
      cbn [mbind result_bind default]; try reflexivity; by rewrite !append_assoc.
Qed.

(** ** Parsing an assembled name *)

(** The canonical name spelled with a board and fields that can stand
    before a separator is accepted, and read as it was spelled. *)
Lemma canonical_of_parses (it : string) (const : InterfaceType)
    (rc board : string) (fields : list string) :
  (it, const) ∈ _INTERFACE_TYPES ->
  accepts it rc fields fields ->
  tokenlike board = true ->
  Forall (fun t => tokenlike t = true) fields ->
  parses (canonical_of it board fields rc) it const rc (it +:+ board) fields.
Proof.
  intros Hit Hacc Hboard Hfields.
  destruct (accepts_plain_names _ _ _ _ Hacc)
    as ((c0 & it' & -> & Hc0) & Hup & Hself & H0 & Hcolon & Hne & Hrs & Hsep & Hrc).
  apply Parses with (rest := fields ++ [rc]) (parts := fields).
  - apply split_canonical_of; try done. by apply tokenlike_prefix.
  - by apply split_resource_class_snoc.
  - exact Hit.
  - rewrite upper_append, Hup. apply startswith_append.
  - exact Hacc.
Qed.

Lemma board_of_prefixed (it board : string) :
  forallb (fun c => char_in c it) (list_ascii_of_string it) = true ->
  board <> "" -> lstrip board it = board ->
  board_of it (it +:+ board) = board.
Proof.
  intros Hself Hne Hl. unfold board_of. cbv zeta.
  rewrite (lstrip_prefix _ _ _ Hself), Hl.
  by destruct (String.eqb_spec board "").
Qed.

(** The record of a name that is accepted. *)
Lemma parse_resource_name_fields (s it : string) (const : InterfaceType)
    (rc first : string) (fields : list string) :
  parses s it const rc first fields ->
  exists out,
    parse_resource_name s = Ok out /\
    out !! "canonical_resource_name" =
      Some (VStr (canonical_of it (board_of it first) fields rc)) /\
    out !! "resource_class" = Some (VStr rc) /\
    out !! "board" = Some (VStr (board_of it first)) /\
    Forall2 (fun k f => out !! k = Some (VStr f)) (field_names it rc) fields.
Proof.
  intros [rest parts Hs Hc Hit Hstart Hacc].
  destruct (run_subparser_fields it const first rc parts _ Hacc)
    as (out & Hrun & Hfields).
  destruct (run_subparser_accepts it const first rc parts _ Hacc)
    as (out' & Hrun' & Hcan & Hrc & _).
  rewrite Hrun in Hrun'. injection Hrun' as <-.
  exists (<["resource_name" := VStr s]> out).
  rewrite (parse_resource_name_tokens _ _ _ _ _ Hs Hc).
  rewrite (call_subparser_run it const), Hrun by done.
  destruct (Hfields s) as [Hboard Hf].
  split_and!; [reflexivity | by rewrite lookup_insert_ne
               | by rewrite lookup_insert_ne | done | done].
Qed.

(** X18: a TCPIP name assembled from a board, a host address and a LAN
    device name (or a port) parses back to the same fields, and is its
    own canonical name, when none of the three holds ["::"] or ends with
    a colon and the board is not empty and does not start with one of the
    characters T, C, P, I. *)
Theorem parse_assembled_tcpip (board host third : string) :
  tokenlike board = true -> tokenlike host = true -> tokenlike third = true ->
  board <> "" -> lstrip board "TCPIP" = board ->
  (exists c out,
      assemble _TCPIPInstr
        (<["board" := VStr board]> (<["host_address" := VStr host]>
          (<["lan_device_name" := VStr third]> ∅))) = Ok c /\
      parse_resource_name c = Ok out /\
      out !! "canonical_resource_name" = Some (VStr c) /\
      out !! "board" = Some (VStr board) /\
      out !! "host_address" = Some (VStr host) /\
      out !! "lan_device_name" = Some (VStr third)) /\
  (exists c out,
      assemble _TCPIPSocket
        (<["board" := VStr board]> (<["host_address" := VStr host]>
          (<["port" := VStr third]> ∅))) = Ok c /\
      parse_resource_name c = Ok out /\
      out !! "canonical_resource_name" = Some (VStr c) /\
      out !! "board" = Some (VStr board) /\
      out !! "host_address" = Some (VStr host) /\
      out !! "port" = Some (VStr third)).
Proof.
  intros Hb Hh Ht Hne Hl.
  assert (Forall (fun t => tokenlike t = true) [host; third]) as Hfields
    by (by repeat constructor).
  assert (("TCPIP", tcpip) ∈ _INTERFACE_TYPES) as Hit
    by (unfold _INTERFACE_TYPES; rewrite !elem_of_cons; tauto).
  pose proof (board_of_prefixed "TCPIP" board eq_refl Hne Hl) as Hboard.
  split.
  - pose proof (canonical_of_parses "TCPIP" tcpip "INSTR" board [host; third]
                  Hit (accepts_tcpip_instr2 _ _) Hb Hfields) as Hp.
    destruct (parse_resource_name_fields _ _ _ _ _ _ Hp)
      as (out & Hparse & Hcan & _ & Hbo & Hf).
    rewrite Hboard in Hcan, Hbo.
    apply Forall2_cons in Hf as [Hf1 Hf]. apply Forall2_cons in Hf as [Hf2 _].
    exists (canonical_of "TCPIP" board [host; third] "INSTR"), out.
    split_and!; [reflexivity | done ..].
  - pose proof (canonical_of_parses "TCPIP" tcpip "SOCKET" board [host; third]
                  Hit (accepts_tcpip_socket2 _ _) Hb Hfields) as Hp.
    destruct (parse_resource_name_fields _ _ _ _ _ _ Hp)
      as (out & Hparse & Hcan & _ & Hbo & Hf).
    rewrite Hboard in Hcan, Hbo.
    apply Forall2_cons in Hf as [Hf1 Hf]. apply Forall2_cons in Hf as [Hf2 _].
    exists (canonical_of "TCPIP" board [host; third] "SOCKET"), out.
    split_and!; [reflexivity | done ..].
Qed.

(** X19: a USB name assembled from a board, a manufacturer, a model, a
    serial number and an interface number parses back to the same fields,
    and is its own canonical name, for the classes INSTR and RAW, when
    none of the five holds ["::"] or ends with a colon and the board is
    not empty and does not start with one of the characters U, S, B. *)
Theorem parse_assembled_usb (board m c n u : string) :
  tokenlike board = true ->
  Forall (fun t => tokenlike t = true) [m; c; n; u] ->
  board <> "" -> lstrip board "USB" = board ->
  let parts : dict :=
    <["board" := VStr board]> (<["manufacturer_id" := VStr m]>
      (<["model_code" := VStr c]> (<["serial_number" := VStr n]>
        (<["usb_interface_number" := VStr u]> ∅)))) in
  forall sub rc, (sub, rc) ∈ [(_USBInstr, "INSTR"); (_USBRaw, "RAW")] ->
  exists name out,
    assemble sub parts = Ok name /\
    parse_resource_name name = Ok out /\
    out !! "canonical_resource_name" = Some (VStr name) /\
    out !! "resource_class" = Some (VStr rc) /\
    out !! "board" = Some (VStr board) /\
    out !! "manufacturer_id" = Some (VStr m) /\
    out !! "model_code" = Some (VStr c) /\
    out !! "serial_number" = Some (VStr n) /\
    out !! "usb_interface_number" = Some (VStr u).
Proof.
  intros Hb Hfields Hne Hl parts sub rc Hin. subst parts.
  assert (("USB", usb) ∈ _INTERFACE_TYPES) as Hit
    by (unfold _INTERFACE_TYPES; rewrite !elem_of_cons; tauto).
  pose proof (board_of_prefixed "USB" board eq_refl Hne Hl) as Hboard.
  assert (accepts "USB" rc [m; c; n; u] [m; c; n; u] /\
          assemble sub
            (<["board" := VStr board]> (<["manufacturer_id" := VStr m]>
              (<["model_code" := VStr c]> (<["serial_number" := VStr n]>
                (<["usb_interface_number" := VStr u]> ∅)))))
          = Ok (canonical_of "USB" board [m; c; n; u] rc)) as [Hacc Hasm].
  { rewrite !elem_of_cons, elem_of_nil in Hin.
    destruct Hin as [H|[H|[]]]; injection H as -> ->;
      (split; [constructor | reflexivity]). }
  pose proof (canonical_of_parses "USB" usb rc board [m; c; n; u]
                Hit Hacc Hb Hfields) as Hp.
  destruct (parse_resource_name_fields _ _ _ _ _ _ Hp)
    as (out & Hparse & Hcan & Hrc & Hbo & Hf).
  rewrite Hboard in Hcan, Hbo.
  assert (field_names "USB" rc = ["manufacturer_id"; "model_code";
                                  "serial_number"; "usb_interface_number"])
    as Hnames by reflexivity.
  rewrite Hnames in Hf.
  apply Forall2_cons in Hf as [Hf1 Hf]. apply Forall2_cons in Hf as [Hf2 Hf].
  apply Forall2_cons in Hf as [Hf3 Hf]. apply Forall2_cons in Hf as [Hf4 _].
  eexists _, _. split_and!; [exact Hasm | exact Hparse | done ..].
Qed.

(** ** The canonical name and the board *)

(** X8: [to_canonical_name] raises what [parse_resource_name] raises, and
    otherwise returns the string that the record holds under
    [canonical_resource_name]: the lookup never fails. *)
Theorem to_canonical_name_outcomes (s : string) :
  match parse_resource_name s with
  | Ok out =>
      exists c, to_canonical_name s = Ok (VStr c) /\
                out !! "canonical_resource_name" = Some (VStr c)
  | Raise e => to_canonical_name s = Raise e
  end.
Proof.
  unfold to_canonical_name.
  destruct (parse_resource_name s) as [out|e] eqn:Hp; [| reflexivity].
  destruct (parse_resource_name_Ok _ _ Hp)
    as (it & const & rc & first & fields & out' & _ & -> & Hc & _).
  eexists. cbn [mbind result_bind]. unfold getitem.
  rewrite lookup_insert_ne, Hc by done. by split.
Qed.

Lemma startswith_append_l (a b p : string) :
  startswith a p = true -> startswith (a +:+ b) p = true.
Proof.
  revert a. induction p as [|c p IH]; intros a; [by destruct (a +:+ b) |].
  destruct a as [|x a]; [discriminate |].
  rewrite append_cons. cbn [startswith]. rewrite !andb_true_iff.
  intros [Hx Ha]. split; [exact Hx | by apply IH].
Qed.

(** Two names that differ in the first token have the same canonical name
    when the first tokens start with the same names of interface types
    and give the same board. *)
Lemma to_canonical_name_first (s s' first first' : string)
    (rest : list string) (v : value) :
  split (strip s) = first :: rest ->
  split (strip s') = first' :: rest ->
  (forall it const, (it, const) ∈ _INTERFACE_TYPES ->
     startswith (upper first) it = true ->
     startswith (upper first') it = true /\
     board_of it first' = board_of it first) ->
  to_canonical_name s = Ok v -> to_canonical_name s' = Ok v.
Proof.
  intros Hs Hs' Hsame. unfold to_canonical_name.
  destruct (parse_resource_name s) as [out|e] eqn:Hp; [| discriminate].
  destruct (parse_resource_name_Ok _ _ Hp)
    as (it & const & rc & first0 & fields & out' & Hparses & -> & Hc & _).
  destruct Hparses as [rest0 parts Hs0 Hcl Hit Hstart Hacc].
  rewrite Hs in Hs0. injection Hs0 as <- <-.
  destruct (Hsame it const Hit Hstart) as [Hstart' Hboard].
  destruct (parse_resource_name_parses s' it const rc first' fields)
    as (out2 & -> & Hc2 & _); [by econstructor |].
  cbn [mbind result_bind]. unfold getitem.
  rewrite !lookup_insert_ne, Hc, Hc2, Hboard by done. tauto.
Qed.

(** X12: the board ["0"] is the default: a name whose first token is the
    upper-case name of an interface type and the name whose first token
    is that name followed by ["0"], with the same further tokens, have
    the same canonical name. *)
Theorem board_zero_is_default (s s' it : string) (const : InterfaceType)
    (rest : list string) (v : value) :
  (it, const) ∈ _INTERFACE_TYPES ->
  split (strip s) = it :: rest ->
  split (strip s') = (it +:+ "0") :: rest ->
  to_canonical_name s' = Ok v <-> to_canonical_name s = Ok v.
Proof.
  intros Hit Hs Hs'.
  assert (forall it' const', (it', const') ∈ _INTERFACE_TYPES ->
            (startswith (upper it) it' = true \/
             startswith (upper (it +:+ "0")) it' = true) ->
            it' = it) as Hunique.
  { unfold _INTERFACE_TYPES in *. rewrite !elem_of_cons, !elem_of_nil in Hit.
    intros it' const'. rewrite !elem_of_cons, !elem_of_nil.
    destruct Hit as [H|[H|[H|[H|[H|[H|[]]]]]]]; injection H as -> ->;
      intros [H'|[H'|[H'|[H'|[H'|[H'|[]]]]]]]; injection H' as -> ->;
      intros [Hst | Hst]; try reflexivity; discriminate Hst. }
  assert (board_of it (it +:+ "0") = board_of it it) as Hboard.
  { unfold _INTERFACE_TYPES in Hit. rewrite !elem_of_cons, !elem_of_nil in Hit.
    destruct Hit as [H|[H|[H|[H|[H|[H|[]]]]]]]; injection H as -> ->;
      reflexivity. }
  assert (startswith (upper it) it = true) as Hself.
  { unfold _INTERFACE_TYPES in Hit. rewrite !elem_of_cons, !elem_of_nil in Hit.
    destruct Hit as [H|[H|[H|[H|[H|[H|[]]]]]]]; injection H as -> ->;
      reflexivity. }
  split.
  - apply (to_canonical_name_first _ _ _ _ _ _ Hs' Hs).
    intros it' const' Hit' Hst.
    rewrite (Hunique it' const' Hit' (or_intror Hst)). by split.
  - apply (to_canonical_name_first _ _ _ _ _ _ Hs Hs').
    intros it' const' Hit' Hst.
    rewrite (Hunique it' const' Hit' (or_introl Hst)). split; [| done].
    rewrite upper_append. by apply startswith_append_l.
Qed.

End Rnames.

(** ** The properties at concrete resource names *)

Lemma assemble_parsed_record_witness :
  exists out,
    parse_resource_name VI_NO_SEC_ADDR_0xFFFF "TCPIP::192.168.0.1::INSTR"
      = Ok out /\
    exists it const rc sub c,
      (it, const) ∈ _INTERFACE_TYPES /\
      out !! "interface_type" = Some (VEnum const) /\
      out !! "resource_class" = Some (VStr rc) /\
      _SUBPARSER VI_NO_SEC_ADDR_0xFFFF !! (it, rc) = Some sub /\
      assemble sub out = Ok c /\
      assemble sub (fields_of out) = Ok c /\
      out !! "canonical_resource_name" = Some (VStr c).
Proof.
  returns (parse_resource_name VI_NO_SEC_ADDR_0xFFFF "TCPIP::192.168.0.1::INSTR").
  exists out. split; [reflexivity |].
  exact (assemble_parsed_record VI_NO_SEC_ADDR_0xFFFF _ _ E).
Defined.

Lemma unknown_interface_type_raises_ValueError_witness :
  split (strip "FOO::1::INSTR") = "FOO" :: ["1"; "INSTR"] /\
  Forall (fun item => startswith (upper "FOO") item.1 = false)
    _INTERFACE_TYPES /\
  parse_resource_name VI_NO_SEC_ADDR_0xFFFF "FOO::1::INSTR" =
    Raise (ValueError "Unknown interface type FOO").
Proof.
  assert (split (strip "FOO::1::INSTR") = "FOO" :: ["1"; "INSTR"]) as Hs
    by reflexivity.
  assert (Forall (fun item => startswith (upper "FOO") item.1 = false)
            _INTERFACE_TYPES) as Hnone by (repeat constructor).
  split_and!; [exact Hs | exact Hnone |].
  exact (unknown_interface_type_raises_ValueError
           VI_NO_SEC_ADDR_0xFFFF _ _ _ Hs Hnone).
Defined.

Lemma unregistered_pair_raises_InvalidResourceName_witness :
  split (strip "GPIB0::1::SOCKET") = "GPIB0" :: ["1"; "SOCKET"] /\
  split_resource_class ["1"; "SOCKET"] = (["1"], "SOCKET") /\
  ("GPIB", gpib) ∈ _INTERFACE_TYPES /\
  startswith (upper "GPIB0") "GPIB" = true /\
  _SUBPARSER VI_NO_SEC_ADDR_0xFFFF !! ("GPIB", "SOCKET") = None /\
  exists msg,
    parse_resource_name VI_NO_SEC_ADDR_0xFFFF "GPIB0::1::SOCKET" =
      Raise (InvalidResourceName msg) /\
    msg = "Invalid resource name: " +:+ "GPIB0::1::SOCKET" +:+
          String "010" "Could find subparser for " +:+ "GPIB0" +:+
          " and " +:+ "SOCKET" /\
    contains msg "GPIB0::1::SOCKET".
Proof.
  assert (("GPIB", gpib) ∈ _INTERFACE_TYPES) as Hit
    by (apply list_elem_of_In; simpl; tauto).
  split_and!; [reflexivity | reflexivity | exact Hit | reflexivity
              | reflexivity |].
  apply (unregistered_pair_raises_InvalidResourceName VI_NO_SEC_ADDR_0xFFFF
           "GPIB0::1::SOCKET" "GPIB0" ["1"; "SOCKET"] ["1"] "SOCKET"
           "GPIB" gpib); [reflexivity | reflexivity | exact Hit
                          | reflexivity | reflexivity].
Defined.

(** The counterexample to C8 as it is stated: the parser accepts
    ["TCPIP0::a::b:"], whose last field ends with a colon; in its canonical
    name the colon runs into the separator that follows, and the
    canonical name is rejected. *)
Lemma to_canonical_name_not_idempotent :
  to_canonical_name VI_NO_SEC_ADDR_0xFFFF "TCPIP0::a::b:" =
    Ok (VStr "TCPIP0::a::b:::INSTR") /\
  to_canonical_name VI_NO_SEC_ADDR_0xFFFF "TCPIP0::a::b:::INSTR" =
    Raise (InvalidResourceName
      ("Invalid resource name: TCPIP0::a::b:::INSTR" +:+
       String "010" "The syntax is TCPIP[board]::host address[::LAN device name][::INSTR]")) /\
  to_canonical_name VI_NO_SEC_ADDR_0xFFFF "TCPIP0::a::b:::INSTR" <>
    Ok (VStr "TCPIP0::a::b:::INSTR").
Proof. split_and!; [reflexivity | reflexivity | discriminate]. Qed.

Lemma to_canonical_name_idempotent_witness :
  to_canonical_name VI_NO_SEC_ADDR_0xFFFF "TCPIP::192.168.0.1" =
    Ok (VStr "TCPIP0::192.168.0.1::inst0::INSTR") /\
  ends_with_colon (List.last (split (strip "TCPIP::192.168.0.1")) "") = false /\
  exists it const board fields rc,
    (it, const) ∈ _INTERFACE_TYPES /\ upper it = it /\
    rc ∈ _RESOURCE_CLASSES /\
    VStr "TCPIP0::192.168.0.1::inst0::INSTR" =
      VStr (canonical_of it board fields rc) /\
    to_canonical_name VI_NO_SEC_ADDR_0xFFFF (canonical_of it board fields rc) =
      Ok (VStr "TCPIP0::192.168.0.1::inst0::INSTR").
Proof.
  split_and!; [reflexivity | reflexivity |].
  apply (to_canonical_name_idempotent VI_NO_SEC_ADDR_0xFFFF
           "TCPIP::192.168.0.1"); reflexivity.
Defined.

Lemma resource_class_from_last_token_witness :
  split (strip "TCPIP::192.168.0.1::INSTR") = "TCPIP" :: ["192.168.0.1"; "INSTR"] /\
  exists parts rc,
    split_resource_class ["192.168.0.1"; "INSTR"] = (parts, rc) /\
    (["192.168.0.1"; "INSTR"] <> [] ->
     List.last ["192.168.0.1"; "INSTR"] "" ∈ _RESOURCE_CLASSES ->
     rc = List.last ["192.168.0.1"; "INSTR"] "" /\
     parts = removelast ["192.168.0.1"; "INSTR"]) /\
    (["192.168.0.1"; "INSTR"] = [] \/
     List.last ["192.168.0.1"; "INSTR"] "" ∉ _RESOURCE_CLASSES ->
     rc = "INSTR" /\ parts = ["192.168.0.1"; "INSTR"]) /\
    parse_resource_name VI_NO_SEC_ADDR_0xFFFF "TCPIP::192.168.0.1::INSTR" =
      try_except "TCPIP::192.168.0.1::INSTR" "TCPIP" rc
        (call_subparser VI_NO_SEC_ADDR_0xFFFF "TCPIP" rc parts) /\
    forall out,
      parse_resource_name VI_NO_SEC_ADDR_0xFFFF "TCPIP::192.168.0.1::INSTR"
        = Ok out ->
      out !! "resource_class" = Some (VStr rc).
Proof.
  split; [reflexivity |].
  apply (resource_class_from_last_token VI_NO_SEC_ADDR_0xFFFF
           "TCPIP::192.168.0.1::INSTR"). reflexivity.
Defined.

Lemma parsed_interface_type_tcpip_or_usb_witness :
  exists out,
    parse_resource_name VI_NO_SEC_ADDR_0xFFFF "USB::1::2::3" = Ok out /\
    (out !! "interface_type" = Some (VEnum tcpip) \/
     out !! "interface_type" = Some (VEnum usb)).
Proof.
  returns (parse_resource_name VI_NO_SEC_ADDR_0xFFFF "USB::1::2::3").
  exists out. split; [reflexivity |].
  exact (parsed_interface_type_tcpip_or_usb VI_NO_SEC_ADDR_0xFFFF _ _ E).
Defined.

Lemma first_part_of_prefixed_witness :
  char_in "1" "ASRL" = false /\
  lstrip ("ASRL" +:+ "1") "ASRL" = "1" /\ lstrip "ASRL" "ASRL" = "".
Proof.
  split; [reflexivity |].
  apply (first_part_of_prefixed "ASRL" "1" ""). reflexivity.
Defined.

Lemma interface_type_unique_witness :
  ("USB", usb) ∈ _INTERFACE_TYPES /\
  startswith (upper "usb1") "USB" = true /\
  "USB" = "USB" /\ usb = usb.
Proof.
  assert (("USB", usb) ∈ _INTERFACE_TYPES) as Hit
    by (apply list_elem_of_In; simpl; tauto).
  split_and!; [exact Hit | reflexivity | |];
    apply (interface_type_unique "usb1" "USB" "USB" usb usb Hit Hit
             eq_refl eq_refl).
Defined.

(** ** The properties of the outcomes at concrete resource names *)

Ltac in_list := apply list_elem_of_In; simpl; tauto.

Lemma wrong_number_of_parts_witness :
  split (strip "USB0::1::2::RAW") = "USB0" :: ["1"; "2"; "RAW"] /\
  split_resource_class ["1"; "2"; "RAW"] = (["1"; "2"], "RAW") /\
  ("USB", usb) ∈ _INTERFACE_TYPES /\
  startswith (upper "USB0") "USB" = true /\
  takes_parts "USB" "RAW" /\
  arity_ok "USB" ["1"; "2"] = false /\
  parse_resource_name VI_NO_SEC_ADDR_0xFFFF "USB0::1::2::RAW" =
    Raise (InvalidResourceName
             ("Invalid resource name: " +:+ "USB0::1::2::RAW" +:+
              String "010" "The syntax is " +:+ syntax_of "USB" "RAW")).
Proof.
  assert (("USB", usb) ∈ _INTERFACE_TYPES) as Hit by in_list.
  assert (takes_parts "USB" "RAW") as Htakes by (unfold takes_parts; in_list).
  split_and!; [reflexivity | reflexivity | exact Hit | reflexivity
              | exact Htakes | reflexivity |].
  exact (wrong_number_of_parts VI_NO_SEC_ADDR_0xFFFF "USB0::1::2::RAW" "USB0"
           ["1"; "2"; "RAW"] ["1"; "2"] "RAW" "USB" usb
           eq_refl eq_refl Hit eq_refl Htakes eq_refl).
Defined.

Lemma right_number_of_parts_witness :
  split (strip " TCPIP::host ") = "TCPIP" :: ["host"] /\
  split_resource_class ["host"] = (["host"], "INSTR") /\
  ("TCPIP", tcpip) ∈ _INTERFACE_TYPES /\
  startswith (upper "TCPIP") "TCPIP" = true /\
  takes_parts "TCPIP" "INSTR" /\
  arity_ok "TCPIP" ["host"] = true /\
  exists out,
    parse_resource_name VI_NO_SEC_ADDR_0xFFFF " TCPIP::host " = Ok out /\
    out !! "board" = Some (VStr (board_of "TCPIP" "TCPIP")) /\
    Forall2 (fun k f => out !! k = Some (VStr f))
      (field_names "TCPIP" "INSTR") (fill_defaults "TCPIP" ["host"]) /\
    out !! "resource_name" = Some (VStr " TCPIP::host ") /\
    out !! "canonical_resource_name" =
      Some (VStr (canonical_of "TCPIP" (board_of "TCPIP" "TCPIP")
                    (fill_defaults "TCPIP" ["host"]) "INSTR")).
Proof.
  assert (("TCPIP", tcpip) ∈ _INTERFACE_TYPES) as Hit by in_list.
  assert (takes_parts "TCPIP" "INSTR") as Htakes
    by (unfold takes_parts; in_list).
  split_and!; [reflexivity | reflexivity | exact Hit | reflexivity
              | exact Htakes | reflexivity |].
  exact (right_number_of_parts VI_NO_SEC_ADDR_0xFFFF " TCPIP::host " "TCPIP"
           ["host"] ["host"] "INSTR" "TCPIP" tcpip
           eq_refl eq_refl Hit eq_refl Htakes eq_refl).
Defined.

Lemma gpib_and_pxi_names_raise_AttributeError_witness :
  split (strip "PXI0::3::INSTR") = "PXI0" :: ["3"; "INSTR"] /\
  split_resource_class ["3"; "INSTR"] = (["3"], "INSTR") /\
  ("PXI", pxi) ∈ _INTERFACE_TYPES /\
  startswith (upper "PXI0") "PXI" = true /\
  ("PXI", "INSTR") ∈ [("GPIB", "INSTR"); ("GPIB", "INTFC"); ("PXI", "INSTR")] /\
  parse_resource_name VI_NO_SEC_ADDR_0xFFFF "PXI0::3::INSTR" =
    Raise (AttributeError "'NoneType' object has no attribute 'update'").
Proof.
  assert (("PXI", pxi) ∈ _INTERFACE_TYPES) as Hit by in_list.
  assert (("PXI", "INSTR") ∈
            [("GPIB", "INSTR"); ("GPIB", "INTFC"); ("PXI", "INSTR")]) as Hdoc
    by in_list.
  split_and!; [reflexivity | reflexivity | exact Hit | reflexivity
              | exact Hdoc |].
  exact (gpib_and_pxi_names_raise_AttributeError VI_NO_SEC_ADDR_0xFFFF
           "PXI0::3::INSTR" "PXI0" ["3"; "INSTR"] ["3"] "INSTR" "PXI" pxi
           eq_refl eq_refl Hit eq_refl Hdoc).
Defined.

Lemma asrl_names_raise_NotImplementedError_witness :
  split (strip "ASRL1::INSTR") = "ASRL1" :: ["INSTR"] /\
  split_resource_class ["INSTR"] = ([], "INSTR") /\
  startswith (upper "ASRL1") "ASRL" = true /\
  parse_resource_name VI_NO_SEC_ADDR_0xFFFF "ASRL1::INSTR" =
    Raise NotImplementedError.
Proof.
  split_and!; [reflexivity | reflexivity | reflexivity |].
  exact (asrl_names_raise_NotImplementedError VI_NO_SEC_ADDR_0xFFFF
           "ASRL1::INSTR" "ASRL1" ["INSTR"] [] eq_refl eq_refl eq_refl).
Defined.

Lemma vxi_names_raise_InvalidResourceName_witness :
  split (strip "VXI0::1::INSTR") = "VXI0" :: ["1"; "INSTR"] /\
  split_resource_class ["1"; "INSTR"] = (["1"], "INSTR") /\
  startswith (upper "VXI0") "VXI" = true /\
  parse_resource_name VI_NO_SEC_ADDR_0xFFFF "VXI0::1::INSTR" =
    Raise (InvalidResourceName
             ("Invalid resource name: " +:+ "VXI0::1::INSTR" +:+
              String "010" "Could find subparser for " +:+
              "VXI0" +:+ " and " +:+ "INSTR")).
Proof.
  split_and!; [reflexivity | reflexivity | reflexivity |].
  exact (vxi_names_raise_InvalidResourceName VI_NO_SEC_ADDR_0xFFFF
           "VXI0::1::INSTR" "VXI0" ["1"; "INSTR"] ["1"] "INSTR"
           eq_refl eq_refl eq_refl).
Defined.

Lemma parsed_record_invariant_witness :
  exists out,
    parse_resource_name VI_NO_SEC_ADDR_0xFFFF " USB::1::2::3" = Ok out /\
    exists it const board,
      (it, const) ∈ _INTERFACE_TYPES /\
      out !! "interface_type" = Some (VEnum const) /\
      out !! "board" = Some (VStr board) /\
      board <> "" /\ lstrip board it = board /\
      out !! "resource_name" = Some (VStr " USB::1::2::3").
Proof.
  returns (parse_resource_name VI_NO_SEC_ADDR_0xFFFF " USB::1::2::3").
  exists out. split; [reflexivity |].
  exact (parsed_record_invariant VI_NO_SEC_ADDR_0xFFFF _ _ E).
Defined.

Lemma instr_is_optional_witness :
  split (strip "TCPIP::host") = "TCPIP" :: ["host"] /\
  split (strip "TCPIP::host::INSTR") = "TCPIP" :: ["host"] ++ ["INSTR"] /\
  (["host"] = [] \/ List.last ["host"] "" ∉ _RESOURCE_CLASSES) /\
  (to_canonical_name VI_NO_SEC_ADDR_0xFFFF "TCPIP::host::INSTR" =
     Ok (VStr "TCPIP0::host::inst0::INSTR") <->
   to_canonical_name VI_NO_SEC_ADDR_0xFFFF "TCPIP::host" =
     Ok (VStr "TCPIP0::host::inst0::INSTR")).
Proof.
  assert (["host"] = [] \/ List.last ["host"] "" ∉ _RESOURCE_CLASSES) as Hlast.
  { right. intros H. apply list_elem_of_In in H. simpl in H.
    repeat (destruct H as [H | H]; [discriminate H |]). exact H. }
  split_and!; [reflexivity | reflexivity | exact Hlast |].
  exact (instr_is_optional VI_NO_SEC_ADDR_0xFFFF "TCPIP::host"
           "TCPIP::host::INSTR" "TCPIP" ["host"] _ eq_refl eq_refl Hlast).
Defined.

Lemma assemble_usb_witness :
  let parts : dict :=
    <["manufacturer_id" := VStr "1"]> (<["model_code" := VStr "2"]>
      (<["serial_number" := VStr "3"]> ∅)) in
  parts !! "manufacturer_id" = Some (VStr "1") /\
  parts !! "model_code" = Some (VStr "2") /\
  parts !! "serial_number" = Some (VStr "3") /\
  assemble _USBInstr parts = Ok "USB0::1::2::3::0::INSTR" /\
  assemble _USBRaw parts = Raise KeyError.
Proof.
  intros parts.
  split_and!; [reflexivity | reflexivity | reflexivity | |];
    apply (assemble_usb parts (VStr "1") (VStr "2") (VStr "3")
             eq_refl eq_refl eq_refl).
Defined.

Lemma parse_assembled_tcpip_witness :
  tokenlike "1" = true /\ tokenlike "host" = true /\ tokenlike "5025" = true /\
  "1" <> "" /\ lstrip "1" "TCPIP" = "1" /\
  exists c out,
    assemble _TCPIPSocket
      (<["board" := VStr "1"]> (<["host_address" := VStr "host"]>
        (<["port" := VStr "5025"]> ∅))) = Ok c /\
    parse_resource_name VI_NO_SEC_ADDR_0xFFFF c = Ok out /\
    out !! "canonical_resource_name" = Some (VStr c) /\
    out !! "board" = Some (VStr "1") /\
    out !! "host_address" = Some (VStr "host") /\
    out !! "port" = Some (VStr "5025").
Proof.
  assert ("1" <> "") as Hne by discriminate.
  split_and!; [reflexivity | reflexivity | reflexivity | exact Hne
              | reflexivity |].
  apply (parse_assembled_tcpip VI_NO_SEC_ADDR_0xFFFF "1" "host" "5025"
           eq_refl eq_refl eq_refl Hne eq_refl).
Defined.

Lemma parse_assembled_usb_witness :
  tokenlike "0" = true /\
  Forall (fun t => tokenlike t = true) ["0x1234"; "0x0001"; "SN001"; "0"] /\
  "0" <> "" /\ lstrip "0" "USB" = "0" /\
  (_USBRaw, "RAW") ∈ [(_USBInstr, "INSTR"); (_USBRaw, "RAW")] /\
  exists name out,
    assemble _USBRaw
      (<["board" := VStr "0"]> (<["manufacturer_id" := VStr "0x1234"]>
        (<["model_code" := VStr "0x0001"]> (<["serial_number" := VStr "SN001"]>
          (<["usb_interface_number" := VStr "0"]> ∅))))) = Ok name /\
    parse_resource_name VI_NO_SEC_ADDR_0xFFFF name = Ok out /\
    out !! "canonical_resource_name" = Some (VStr name) /\
    out !! "resource_class" = Some (VStr "RAW") /\
    out !! "board" = Some (VStr "0") /\
    out !! "manufacturer_id" = Some (VStr "0x1234") /\
    out !! "model_code" = Some (VStr "0x0001") /\
    out !! "serial_number" = Some (VStr "SN001") /\
    out !! "usb_interface_number" = Some (VStr "0").
Proof.
  assert ("0" <> "") as Hne by discriminate.
  assert (Forall (fun t => tokenlike t = true)
            ["0x1234"; "0x0001"; "SN001"; "0"]) as Hf by (by repeat constructor).
  assert ((_USBRaw, "RAW") ∈ [(_USBInstr, "INSTR"); (_USBRaw, "RAW")]) as Hin
    by (apply list_elem_of_In; simpl; tauto).
  split_and!; [reflexivity | exact Hf | exact Hne | reflexivity | exact Hin |].
  exact (parse_assembled_usb VI_NO_SEC_ADDR_0xFFFF "0" "0x1234" "0x0001"
           "SN001" "0" eq_refl Hf Hne eq_refl _USBRaw "RAW" Hin).
Defined.

Lemma board_zero_is_default_witness :
  ("USB", usb) ∈ _INTERFACE_TYPES /\
  split (strip "USB::1::2::3") = "USB" :: ["1"; "2"; "3"] /\
  split (strip "USB0::1::2::3") = ("USB" +:+ "0") :: ["1"; "2"; "3"] /\
  (to_canonical_name VI_NO_SEC_ADDR_0xFFFF "USB0::1::2::3" =
     Ok (VStr "USB0::1::2::3::0::INSTR") <->
   to_canonical_name VI_NO_SEC_ADDR_0xFFFF "USB::1::2::3" =
     Ok (VStr "USB0::1::2::3::0::INSTR")).
Proof.
  assert (("USB", usb) ∈ _INTERFACE_TYPES) as Hit by in_list.
  split_and!; [exact Hit | reflexivity | reflexivity |].
  exact (board_zero_is_default VI_NO_SEC_ADDR_0xFFFF "USB::1::2::3"
           "USB0::1::2::3" "USB" usb ["1"; "2"; "3"] _ Hit eq_refl eq_refl).
Defined.
